(** * A discrete model of long-term potentiation (3002model.py)

    The script builds one parameter record per biological condition
    ([setup_parameters]), integrates the synaptic weight over a uniform time
    grid with a two-phase update rule ([run_ltp_simulation]) and plots the
    three traces.  This development embeds the first two parts and proves
    the testable properties of the simulator.

    Numbers.  Every number the simulator touches is an IEEE 754 binary64
    value: Python's [float], NumPy's [float64], and the integer literals
    [100], [40], [45] and [0], which NumPy and Python convert exactly
    before they enter an operation.  They are modelled by Rocq's primitive
    [float], whose operations are the same binary64 operations rounded to
    nearest even, so a trace computed here is bit for bit the trace the
    script produces.

    Arrays.  A NumPy array of floats is a [list float], read with stdpp's
    lookup and written with stdpp's insert behind an explicit bounds check,
    because NumPy raises [IndexError] where stdpp's insert would silently do
    nothing.  Storage is taken to be unbounded. *)

From Stdlib Require Import ZArith QArith Qabs Floats Lia.
From stdpp Require Import gmap strings list fin_maps.

Set Warnings "-inexact-float".

(** ** Exceptions and the result monad *)

Module Py.

(** The exceptions the simulator can meet. *)
Inductive exn : Set :=
| ZeroDivisionError
| ValueError
| IndexError.

Inductive result (A : Type) : Type :=
| Ok (a : A)
| Raise (e : exn).
Arguments Ok {A} a.
Arguments Raise {A} e.

Definition bind {A B : Type} (r : result A) (k : A → result B) : result B :=
  match r with
  | Ok a => k a
  | Raise e => Raise e
  end.

(** [range(n)] with a body that may raise: the state is threaded through
    the indices [0, 1, ..., n-1] in this order and the first exception
    ends the loop. *)
Fixpoint for_each {S : Type} (body : S → nat → result S)
    (indices : list nat) (s : S) : result S :=
  match indices with
  | [] => Ok s
  | i :: rest => bind (body s i) (for_each body rest)
  end.

Definition for_range {S : Type} (n : nat) (body : S → nat → result S)
    (s : S) : result S :=
  for_each body (seq 0 n) s.

End Py.

Import Py.

(** stdpp's monadic notation [x ← r; k] for computations that may raise. *)
#[global] Instance result_bind : MBind result := λ A B k r, Py.bind r k.
#[global] Instance result_ret : MRet result := @Py.Ok.

(** ** The NumPy operations the simulator uses *)

Module NumPy.

(** The largest array length, [NPY_MAX_INTP] on a 64-bit build. *)
Definition max_intp : Z := 2 ^ 63 - 1.

(** Conversion of an array index to binary64, C's [(double) i]. *)
Definition of_index (i : nat) : float :=
  PrimFloat.of_uint63 (Uint63.of_Z (Z.of_nat i)).

(** [ceil] of a binary64 value as an integer; [None] for NaN and the
    infinities, which have no integer ceiling. *)
Definition ceil (x : float) : option Z :=
  match Prim2SF x with
  | S754_zero _ => Some 0%Z
  | S754_finite s m e =>
      let v := if s then Z.neg m else Z.pos m in
      Some (match e with
            | Z0 => v
            | Zpos k => v * 2 ^ Z.pos k
            | Zneg k => - ((- v) / 2 ^ Z.pos k)
            end)%Z
  | S754_infinity _ | S754_nan => None
  end.

(** The number of grid points of [np.arange(start, stop, step)], NumPy's
    [_calc_length].  The quotient [(stop - start) / step] is Python's, so a
    zero step raises [ZeroDivisionError].  Its ceiling is the length; a
    quotient that is NaN, or whose ceiling does not fit an array length,
    raises [ValueError] (cannot compute length, maximum allowed size
    exceeded).  When the quotient is a zero although [stop - start] is not
    (it has underflowed, or the step is infinite) the length is 1 for a
    positive zero and 0 for a negative one.  A length that is not positive
    gives the empty array. *)
Definition arange_length (start stop step : float) : result nat :=
  if (step =? 0)%float then Raise ZeroDivisionError
  else
    let next := (stop - start)%float in
    let value := (next / step)%float in
    if PrimFloat.is_nan value then Raise ValueError
    else match ceil value with
         | None => Raise ValueError
         | Some len =>
             if (max_intp <? len)%Z then Raise ValueError
             else if (len <? - max_intp - 1)%Z then Raise ValueError
             else if (value =? 0)%float && negb (next =? 0)%float
                  then Ok (if PrimFloat.get_sign value then 0 else 1)
                  else Ok (Z.to_nat len)
         end.

(** The grid point of index [i]: NumPy stores [start] at index 0 and
    [start + step] at index 1, and fills the rest as [start + i * delta]
    with [delta] the difference of the first two entries. *)
Definition arange_item (start step : float) (i : nat) : float :=
  match i with
  | 0 => start
  | 1 => (start + step)%float
  | _ => (start + of_index i * ((start + step) - start))%float
  end.

(** [np.arange(start, stop, step)]. *)
Definition arange (start stop step : float) : result (list float) :=
  len ← arange_length start stop step;
  Ok (arange_item start step <$> seq 0 len).

(** [np.zeros(n)]. *)
Definition zeros (n : nat) : list float := replicate n 0%float.

(** [a[i]] for a non-negative index. *)
Definition getitem (a : list float) (i : nat) : result float :=
  match a !! i with
  | Some x => Ok x
  | None => Raise IndexError
  end.

(** [a[i] = v] for a non-negative index. *)
Definition setitem (a : list float) (i : nat) (v : float)
    : result (list float) :=
  if decide (i < length a) then Ok (<[i := v]> a) else Raise IndexError.

End NumPy.

(** ** Condition parameters *)

(** The parameters every condition shares, [base_params] in the script. *)
Record shared_params : Set := {
  shared_total_time : float;
  shared_dt : float;
  shared_w_initial : float;
  shared_tetanus_start : float;
  shared_tetanus_end : float
}.

(** One condition's parameter dictionary: the shared entries and the two
    entries of the condition. *)
Record params : Set := {
  total_time : float;
  dt : float;
  w_initial : float;
  tetanus_start : float;
  tetanus_end : float;
  w_max : float;
  learning_rate : float
}.

Definition base_params : shared_params := {|
  shared_total_time := 100;
  shared_dt := 0.1;
  shared_w_initial := 1.0;
  shared_tetanus_start := 40;
  shared_tetanus_end := 45
|}.

(** [{**base_params, 'w_max': wm, 'learning_rate': lr}]. *)
Definition inherit (b : shared_params) (wm lr : float) : params := {|
  total_time := shared_total_time b;
  dt := shared_dt b;
  w_initial := shared_w_initial b;
  tetanus_start := shared_tetanus_start b;
  tetanus_end := shared_tetanus_end b;
  w_max := wm;
  learning_rate := lr
|}.

Definition setup_parameters : gmap string params :=
  <["Healthy" := inherit base_params 2.5 0.5]>
  (<["AD" := inherit base_params 1.2 0.05]>
  (<["AD + Treatment" := inherit base_params 2.5 0.5]> ∅)).

(** ** The simulator *)

(** [tetanus_start <= current_time < tetanus_end]. *)
Definition in_window (p : params) (current_time : float) : bool :=
  (tetanus_start p <=? current_time)%float
  && (current_time <? tetanus_end p)%float.

(** The LTP induction rule,
    [dw = learning_rate * (w_max - current_weight) * dt]. *)
Definition dw (p : params) (current_weight : float) : float :=
  (learning_rate p * (w_max p - current_weight) * dt p)%float.

(** One pass through the body of the [for] loop. *)
Definition loop_body (p : params) (time_steps : list float)
    (synaptic_weight : list float) (i : nat) : result (list float) :=
  current_time ← NumPy.getitem time_steps i;
  current_weight ← NumPy.getitem synaptic_weight i;
  if in_window p current_time
  then NumPy.setitem synaptic_weight (i + 1)
         (current_weight + dw p current_weight)%float
  else NumPy.setitem synaptic_weight (i + 1) current_weight.

Definition run_ltp_simulation (p : params)
    : result (list float * list float) :=
  time_steps ← NumPy.arange 0 (total_time p) (dt p);
  let synaptic_weight := NumPy.zeros (length time_steps) in
  synaptic_weight ← NumPy.setitem synaptic_weight 0 (w_initial p);
  synaptic_weight ←
    for_range (length time_steps - 1) (loop_body p time_steps)
      synaptic_weight;
  Ok (time_steps, synaptic_weight).

(** ** The recurrence the loop computes *)

(** The weight that follows [w] when the grid time is [t]. *)
Definition next_weight (p : params) (t w : float) : float :=
  if in_window p t then (w + dw p w)%float else w.

(** The weights along a grid, from the initial weight on: a functional
    description of what the loop leaves in [synaptic_weight]. *)
Fixpoint trace (p : params) (time_steps : list float) (w : float)
    : list float :=
  match time_steps with
  | [] => []
  | t :: rest => w :: trace p rest (next_weight p t w)
  end.

(** The exact rational value of a finite binary64 number (0 for NaN and the
    infinities, which the traces below never contain). *)
Definition F2Q (x : float) : Q :=
  match Prim2SF x with
  | S754_finite s m e =>
      let v := if s then Z.neg m else Z.pos m in
      match e with
      | Z0 => inject_Z v
      | Zpos k => inject_Z (v * 2 ^ Z.pos k)
      | Zneg k => Qmake v (2 ^ k)
      end
  | _ => 0%Q
  end.

(** ** The loop invariant *)

(** The loop invariant before the pass of index [k]: the array has its
    final length and its entries up to [k] are the recurrence's. *)
Definition loop_inv (p : params) (time_steps : list float) (k : nat)
    (synaptic_weight : list float) : Prop :=
  length synaptic_weight = length time_steps
  ∧ ∀ j, j ≤ k →
         synaptic_weight !! j = trace p time_steps (w_initial p) !! j.

(** ** Inputs and checks of the properties below

    The runs of the three conditions are concrete lists of binary64
    numbers, so a decidable property of a run is settled by running the
    simulator and a checker on its result. *)

(** The run of [p] returns and its result passes [check]. *)
Definition run_satisfies (p : params)
    (check : list float → list float → bool) : bool :=
  match run_ltp_simulation p with
  | Ok (time_steps, weight) => check time_steps weight
  | Raise _ => false
  end.

(** The grid of the three conditions, [np.arange(0, 100, 0.1)]. *)
Definition grid_100_01 : list float :=
  (fun i => 0 + NumPy.of_index i * 0.1)%float <$> seq 0 1000.

(** The Healthy record with a zero duration. *)
Definition zero_duration : params := {|
  total_time := 0;
  dt := 0.1;
  w_initial := 1.0;
  tetanus_start := 40;
  tetanus_end := 45;
  w_max := 2.5;
  learning_rate := 0.5
|}.

(** The record [p] with its [learning_rate] entry replaced. *)
Definition with_learning_rate (p : params) (lr : float) : params := {|
  total_time := total_time p;
  dt := dt p;
  w_initial := w_initial p;
  tetanus_start := tetanus_start p;
  tetanus_end := tetanus_end p;
  w_max := w_max p;
  learning_rate := lr
|}.

(** Every weight, and the last one in particular, is at most [w_max]. *)
Definition bounded_by_w_max (p : params) (_ weight : list float) : bool :=
  forallb (fun w => (w <=? w_max p)%float) weight
  && match last weight with
     | Some w => (w <=? w_max p)%float
     | None => false
     end.

(** A relation checked between every entry of a list and every later one. *)
Fixpoint all_pairs {A : Type} (f : A → A → bool) (l : list A) : bool :=
  match l with
  | [] => true
  | x :: rest => forallb (f x) rest && all_pairs f rest
  end.

(** The check of one pair of grid points: when both times lie in the
    window, the earlier weight is at most the later one. *)
Definition window_le (p : params) (a b : float * float) : bool :=
  implb (in_window p a.1 && in_window p b.1) (a.2 <=? b.2)%float.

(** [window_le] between every grid point and itself and every later one. *)
Definition monotone_in_window (p : params)
    (time_steps weight : list float) : bool :=
  forallb (fun a => window_le p a a) (zip time_steps weight)
  && all_pairs (window_le p) (zip time_steps weight).

(** The strict order of the rationals as a test. *)
Definition Qlt_bool (x y : Q) : bool := negb (Qle_bool y x).

(** The index [i] is the only one whose grid time equals [t]. *)
Definition only_index (time_steps : list float) (i : nat) (t : float)
    : bool :=
  forallb (fun jt => implb (jt.2 =? t)%float (Nat.eqb jt.1 i))
    (zip (seq 0 (length time_steps)) time_steps).

(** The comparison of two runs at the grid point of index [i] and time
    [t]: the first run's weight lies strictly between its initial weight
    and its [w_max], above the second run's weight, and nearer to the first
    run's [w_max] than the second run's weight is, both for the exact
    values and for the distances as binary64 computes them. *)
Definition closer_at (p q : params) (i : nat) (t : float) : bool :=
  match run_ltp_simulation p, run_ltp_simulation q with
  | Ok (ts, ws), Ok (ts', ws') =>
      match ts !! i, ts' !! i, ws !! i, ws' !! i with
      | Some ti, Some ti', Some w, Some w' =>
          PrimFloat.Leibniz.eqb ti t && PrimFloat.Leibniz.eqb ti' t
          && only_index ts i t && only_index ts' i t
          && (w_initial p <? w)%float && (w <? w_max p)%float
          && (w' <? w)%float
          && Qlt_bool (Qabs (F2Q (w_max p) - F2Q w))
               (Qabs (F2Q (w_max p) - F2Q w'))
          && (PrimFloat.abs (w_max p - w) <? PrimFloat.abs (w_max p - w'))%float
      | _, _, _, _ => false
      end
  | _, _ => false
  end.

(** Both arrays have 1000 entries, which is the quotient
    [total_time / dt]; the grid starts at 0 and stays below [total_time]. *)
Definition grid_shape (p : params) (time_steps weight : list float)
    : bool :=
  Nat.eqb (length time_steps) 1000
  && Nat.eqb (length weight) 1000
  && PrimFloat.Leibniz.eqb (total_time p / dt p)%float 1000%float
  && match NumPy.ceil (total_time p / dt p)%float with
     | Some n => Z.eqb n 1000
     | None => false
     end
  && match time_steps !! 0 with
     | Some t => PrimFloat.Leibniz.eqb t 0%float
     | None => false
     end
  && forallb (fun t => (t <? total_time p)%float) time_steps.

(** The weight array is as long as the grid, not empty, and equal to [w0]
    at every index. *)
Definition constant_at (w0 : float) (time_steps weight : list float)
    : bool :=
  Nat.eqb (length weight) (length time_steps)
  && negb (Nat.eqb (length weight) 0)
  && forallb (fun w => PrimFloat.Leibniz.eqb w w0) weight.

(** The end of the window is the grid point of index [i + 1], whose
    predecessor lies in the window: the weight of index [i + 1] carries the
    last update and the weight of index [i + 2] repeats it. *)
Definition window_end_on_grid (p : params) (i : nat)
    (time_steps weight : list float) : bool :=
  match time_steps !! i, time_steps !! (i + 1),
        weight !! i, weight !! (i + 1), weight !! (i + 2) with
  | Some t, Some t_end, Some w, Some w_end, Some w_after =>
      in_window p t
      && PrimFloat.Leibniz.eqb t_end (tetanus_end p)
      && negb (in_window p t_end)
      && PrimFloat.Leibniz.eqb w_end (w + dw p w)%float
      && PrimFloat.Leibniz.eqb w_after w_end
      && (w <? w_end)%float
  | _, _, _, _, _ => false
  end.

(** ** The main block

    The main block runs the simulator on every entry of the parameter
    dictionary, in the dictionary's order, stores each result under the
    condition's name and hands the results to the plotter. *)

(** [{'time': time, 'weight': weight}], what the main block stores for one
    condition. *)
Record condition_result : Set := {
  time : list float;
  weight : list float
}.

(** [all_params.items()]: the entries of [setup_parameters] in the order
    the dictionary literal inserts them. *)
Definition setup_parameters_items : list (string * params) :=
  [("Healthy", inherit base_params 2.5 0.5);
   ("AD", inherit base_params 1.2 0.05);
   ("AD + Treatment", inherit base_params 2.5 0.5)].

(** The [for] loop of the main block over the items of a parameter
    dictionary: each run's arrays are stored under the condition's name, a
    later entry of the same name replacing an earlier one, and the first
    run that raises ends the loop. *)
Fixpoint run_conditions (items : list (string * params))
    (results : gmap string condition_result)
    : result (gmap string condition_result) :=
  match items with
  | [] => Ok results
  | (condition_name, condition_params) :: rest =>
      out ← run_ltp_simulation condition_params;
      run_conditions rest
        (<[condition_name := {| time := out.1; weight := out.2 |}]> results)
  end.

(** ** The plotter

    The plotter draws through matplotlib's [plt] interface.  A figure is
    modelled by the list of the calls made on it, in order, each with the
    arguments the script passes. *)

(** What the script as a whole can raise: an exception of the simulator, a
    missing dictionary key, matplotlib's refusal to plot two arrays of
    different lengths against each other, or its refusal of an axis limit
    that is NaN or infinite (both a [ValueError]). *)
Inductive script_exn : Set :=
| SimulationError (e : exn)
| KeyError (key : string)
| ShapeError
| AxisLimitError.

Inductive outcome (A : Type) : Type :=
| Done (a : A)
| Failed (e : script_exn).
Arguments Done {A} a.
Arguments Failed {A} e.

#[global] Instance outcome_bind : MBind outcome := λ A B k r,
  match r with
  | Done a => k a
  | Failed e => Failed e
  end.
#[global] Instance outcome_ret : MRet outcome := @Done.

(** The calls on [plt], with their arguments. *)
Inductive plt_call : Set :=
| plt_figure (figsize : float * float)
| plt_plot (x y : list float) (label color : string) (linewidth : float)
    (linestyle : option string)
| plt_title (text : string) (fontsize : float)
| plt_xlabel (text : string) (fontsize : float)
| plt_ylabel (text : string) (fontsize : float)
| plt_grid (visible : bool) (linestyle : string) (alpha : float)
| plt_axvspan (xmin xmax : float) (color : string) (alpha : float)
    (label : string)
| plt_ylim (bottom top : float)
| plt_legend (fontsize : float)
| plt_show.

(** [d[key]] on a dictionary. *)
Definition getkey {V : Type} (d : gmap string V) (key : string)
    : outcome V :=
  match d !! key with
  | Some v => Done v
  | None => Failed (KeyError key)
  end.

(** [plt.plot(x, y, ...)]: matplotlib raises when [x] and [y] differ in
    length. *)
Definition plot (x y : list float) (label color : string)
    (linewidth : float) (linestyle : option string) : outcome plt_call :=
  if decide (length x = length y)
  then Done (plt_plot x y label color linewidth linestyle)
  else Failed ShapeError.

(** [plt.ylim(bottom, top)]: matplotlib raises when a limit is NaN or
    infinite. *)
Definition ylim (bottom top : float) : outcome plt_call :=
  if PrimFloat.is_finite bottom && PrimFloat.is_finite top
  then Done (plt_ylim bottom top)
  else Failed AxisLimitError.

Definition plot_comparative_results
    (all_results : gmap string condition_result)
    (params : gmap string params) : outcome (list plt_call) :=
  healthy ← getkey all_results "Healthy";
  curve_healthy ←
    plot (time healthy) (weight healthy)
      "Healthy Control" "royalblue" 2.5 None;
  ad ← getkey all_results "AD";
  curve_ad ←
    plot (time ad) (weight ad)
      "Alzheimer's Disease (AD)" "firebrick" 2.5 (Some "--");
  treated ← getkey all_results "AD + Treatment";
  curve_treated ←
    plot (time treated) (weight treated)
      "AD + Treatment" "forestgreen" 2.5 (Some ":");
  healthy_params ← getkey params "Healthy";
  let tetanus_start := tetanus_start healthy_params in
  let tetanus_end := tetanus_end healthy_params in
  limits ← ylim 0 (w_max healthy_params + 0.5)%float;
  Done [plt_figure (12, 8)%float;
        curve_healthy; curve_ad; curve_treated;
        plt_title "Comparative Model of LTP Under Different Conditions" 16;
        plt_xlabel "Time (s)" 12;
        plt_ylabel "Synaptic Weight (Arbitrary Units)" 12;
        plt_grid true "--" 0.6;
        plt_axvspan tetanus_start tetanus_end "salmon" 0.4
          "Tetanic Stimulation";
        limits;
        plt_legend 11;
        plt_show].

(** The main block. *)
Definition main : outcome (list plt_call) :=
  match run_conditions setup_parameters_items ∅
        return outcome (list plt_call) with
  | Ok results => plot_comparative_results results setup_parameters
  | Raise e => Failed (SimulationError e)
  end.

(** The curves of a figure, in the order they were drawn. *)
Definition curves (fig : list plt_call) : list condition_result :=
  omap (fun c => match c with
                 | plt_plot x y _ _ _ _ => Some {| time := x; weight := y |}
                 | _ => None
                 end) fig.

(** The vertical spans of a figure. *)
Definition spans (fig : list plt_call) : list (float * float) :=
  omap (fun c => match c with
                 | plt_axvspan xmin xmax _ _ _ => Some (xmin, xmax)
                 | _ => None
                 end) fig.

(** The limits of the y axis, as the last [plt.ylim] set them. *)
Definition y_limits (fig : list plt_call) : option (float * float) :=
  last (omap (fun c => match c with
                       | plt_ylim bottom top => Some (bottom, top)
                       | _ => None
                       end) fig).

(** The record [p] with its [total_time] entry replaced. *)
Definition with_total_time (p : params) (T : float) : params := {|
  total_time := T;
  dt := dt p;
  w_initial := w_initial p;
  tetanus_start := tetanus_start p;
  tetanus_end := tetanus_end p;
  w_max := w_max p;
  learning_rate := learning_rate p
|}.

(** The Healthy record with the two ends of the window exchanged. *)
Definition inverted_window : params := {|
  total_time := 100;
  dt := 0.1;
  w_initial := 1.0;
  tetanus_start := 45;
  tetanus_end := 40;
  w_max := 2.5;
  learning_rate := 0.5
|}.

(** Equality of two arrays, entry by entry. *)
Fixpoint array_eqb (a b : list float) : bool :=
  match a, b with
  | [], [] => true
  | x :: a', y :: b' => PrimFloat.Leibniz.eqb x y && array_eqb a' b'
  | _, _ => false
  end.

(** The check of a figure against two runs, the second drawn between two
    copies of the first: the figure has these three curves in this order,
    one span from [lo] to [hi], y limits 0 and [top], and every plotted
    weight strictly between the limits. *)
Definition figure_shows (m : outcome (list plt_call))
    (first second : result (list float * list float))
    (lo hi top : float) : bool :=
  match m, first, second with
  | Done fig, Ok (t1, w1), Ok (t2, w2) =>
      match curves fig, spans fig, y_limits fig with
      | [c1; c2; c3], [(xmin, xmax)], Some (bottom, top') =>
          array_eqb (time c1) t1 && array_eqb (weight c1) w1
          && array_eqb (time c2) t2 && array_eqb (weight c2) w2
          && array_eqb (time c3) t1 && array_eqb (weight c3) w1
          && PrimFloat.Leibniz.eqb xmin lo && PrimFloat.Leibniz.eqb xmax hi
          && PrimFloat.Leibniz.eqb bottom 0 && PrimFloat.Leibniz.eqb top' top
          && forallb (fun w => (0 <? w)%float && (w <? top)%float) w1
          && forallb (fun w => (0 <? w)%float && (w <? top)%float) w2
      | _, _, _ => false
      end
  | _, _, _ => false
  end.

(** ** Facts about binary64 *)

Module Float64.

Lemma SFcompare_refl (x : spec_float) :
  x ≠ S754_nan → SFcompare x x = Some Eq.
Proof.
  destruct x as [s|s| |s m e]; simpl.
  - done.
  - by destruct s.
  - done.
  - intros _.
    destruct s; rewrite Z.compare_refl, Pos.compare_cont_refl; done.
Qed.

(** Two numbers that compare equal are not strictly ordered. *)
Lemma eqb_not_ltb (x y : float) :
  (x =? y)%float = true → (x <? y)%float = false.
Proof.
  rewrite FloatAxioms.eqb_spec, FloatAxioms.ltb_spec. unfold SFeqb, SFltb.
  by destruct (SFcompare _ _) as [[]|].
Qed.

Lemma not_nan_Prim2SF (x : float) :
  PrimFloat.is_nan x = false → Prim2SF x ≠ S754_nan.
Proof.
  unfold PrimFloat.is_nan. rewrite FloatAxioms.eqb_spec. intros H E.
  rewrite E in H. discriminate H.
Qed.

(** Adding to zero changes nothing that binary64 equality sees. *)
Lemma add_zero_l (y : float) :
  PrimFloat.is_nan (0 + y)%float = false → (0 + y =? y)%float = true.
Proof.
  intros H. apply not_nan_Prim2SF in H.
  rewrite FloatAxioms.eqb_spec. rewrite FloatAxioms.add_spec in *.
  change (Prim2SF 0) with (S754_zero false) in *.
  unfold SF64add in *. unfold SFeqb.
  destruct (Prim2SF y) as [s|s| |s m e] eqn:E.
  - by destruct s.
  - by destruct s.
  - done.
  - change (SFadd prec emax (S754_zero false) (S754_finite s m e))
      with (S754_finite s m e).
    rewrite (SFcompare_refl (S754_finite s m e)); done.
Qed.

(** The two binary64 zeros are the only numbers equal to [0]. *)
Lemma eqb_zero (x : float) :
  (x =? 0)%float = true → x = 0%float ∨ x = (-0)%float.
Proof.
  rewrite FloatAxioms.eqb_spec. change (Prim2SF 0) with (S754_zero false).
  unfold SFeqb. destruct (Prim2SF x) as [s|s| |s m e] eqn:E; simpl.
  - intros _. destruct s; [right|left]; by apply Prim2SF_inj; rewrite E.
  - by destruct s.
  - done.
  - by destruct s.
Qed.

(** Zero divided by a number that is neither zero nor NaN is a zero. *)
Lemma zero_div (x y : float) :
  (x =? 0)%float = true →
  (y =? 0)%float = false →
  PrimFloat.is_nan y = false →
  ∃ s, Prim2SF (x / y)%float = S754_zero s.
Proof.
  intros Hx Hy Hnan. apply not_nan_Prim2SF in Hnan.
  rewrite FloatAxioms.eqb_spec in Hy.
  change (Prim2SF 0) with (S754_zero false) in Hy.
  rewrite FloatAxioms.div_spec.
  destruct (eqb_zero x Hx) as [-> | ->].
  - change (Prim2SF 0) with (S754_zero false).
    destruct (Prim2SF y) as [s|s| |s m e]; [done| | done| ].
    + by exists (xorb false s).
    + by exists (xorb false s).
  - change (Prim2SF (-0)) with (S754_zero true).
    destruct (Prim2SF y) as [s|s| |s m e]; [done| | done| ].
    + by exists (xorb true s).
    + by exists (xorb true s).
Qed.

(** Subtracting zero from a zero leaves a zero. *)
Lemma zero_sub_zero (x : float) :
  (x =? 0)%float = true → (x - 0 =? 0)%float = true.
Proof. intros Hx. by destruct (eqb_zero x Hx) as [-> | ->]. Qed.

(** Adding a number that is neither zero nor NaN to zero gives it back. *)
Lemma add_zero_l_eq (y : float) :
  (y =? 0)%float = false →
  PrimFloat.is_nan y = false →
  (0 + y)%float = y.
Proof.
  intros Hy Hnan. apply not_nan_Prim2SF in Hnan.
  rewrite FloatAxioms.eqb_spec in Hy.
  change (Prim2SF 0) with (S754_zero false) in Hy.
  apply Prim2SF_inj. rewrite FloatAxioms.add_spec.
  change (Prim2SF 0) with (S754_zero false).
  destruct (Prim2SF y) as [s|s| |s m e]; done.
Qed.

(** Subtracting zero changes nothing. *)
Lemma sub_zero_r (y : float) : (y - 0)%float = y.
Proof.
  apply Prim2SF_inj. rewrite FloatAxioms.sub_spec.
  change (Prim2SF 0) with (S754_zero false).
  by destruct (Prim2SF y) as [[]|[]| |[] m e].
Qed.

Lemma is_nan_Prim2SF (x : float) :
  PrimFloat.is_nan x = true → Prim2SF x = S754_nan.
Proof.
  unfold PrimFloat.is_nan. rewrite FloatAxioms.eqb_spec. unfold SFeqb.
  destruct (Prim2SF x) as [s|s| |s m e] eqn:E; [| |done|].
  all: by rewrite SFcompare_refl.
Qed.

(** A quotient that is a number has a divisor that is a number. *)
Lemma div_not_nan (x y : float) :
  PrimFloat.is_nan (x / y)%float = false → PrimFloat.is_nan y = false.
Proof.
  intros Hq. destruct (PrimFloat.is_nan y) eqn:Hy; [|done].
  apply is_nan_Prim2SF in Hy. apply not_nan_Prim2SF in Hq.
  rewrite FloatAxioms.div_spec, Hy in Hq.
  by destruct (Prim2SF x) as [s|s| |s m e].
Qed.

End Float64.

(** ** The recurrence, index by index *)

Lemma length_trace (p : params) (time_steps : list float) (w : float) :
  length (trace p time_steps w) = length time_steps.
Proof.
  revert w. induction time_steps as [|t rest IH]; intros w; simpl; [done|].
  by rewrite IH.
Qed.

Lemma trace_lookup_0 (p : params) (time_steps : list float) (w : float) :
  time_steps ≠ [] → trace p time_steps w !! 0 = Some w.
Proof. by destruct time_steps. Qed.

Lemma trace_lookup_S (p : params) (time_steps : list float) (w : float)
    (i : nat) (t wi : float) :
  time_steps !! i = Some t →
  trace p time_steps w !! i = Some wi →
  S i < length time_steps →
  trace p time_steps w !! S i = Some (next_weight p t wi).
Proof.
  revert w i. induction time_steps as [|t0 rest IH]; intros w i Ht Hw Hlt.
  - done.
  - destruct i as [|i]; simpl in *.
    + injection Ht as ->. injection Hw as ->.
      apply trace_lookup_0. destruct rest; simpl in *; [lia|done].
    + apply (IH _ i); [done|done|lia].
Qed.

(** ** The loop computes the recurrence *)

Section Loop.

Context (p : params) (time_steps : list float).

Local Abbreviation tr := (trace p time_steps (w_initial p)).

Local Abbreviation loop_inv := (loop_inv p time_steps).

Lemma loop_inv_init :
  time_steps ≠ [] →
  NumPy.setitem (NumPy.zeros (length time_steps)) 0 (w_initial p)
  = Ok (<[0 := w_initial p]> (NumPy.zeros (length time_steps)))
  ∧ loop_inv 0 (<[0 := w_initial p]> (NumPy.zeros (length time_steps))).
Proof.
  intros Hne. unfold NumPy.setitem, NumPy.zeros.
  assert (0 < length time_steps) as Hlen
    by (destruct time_steps; simpl; [done|lia]).
  rewrite length_replicate. rewrite decide_True by done.
  split; [done|]. split.
  - by rewrite length_insert, length_replicate.
  - intros j Hj. assert (j = 0) as -> by lia.
    rewrite list_lookup_insert_eq by (by rewrite length_replicate).
    by rewrite trace_lookup_0.
Qed.

Lemma loop_body_inv (k : nat) (synaptic_weight : list float) :
  loop_inv k synaptic_weight →
  S k < length time_steps →
  ∃ synaptic_weight',
    loop_body p time_steps synaptic_weight k = Ok synaptic_weight'
    ∧ loop_inv (S k) synaptic_weight'.
Proof.
  intros [Hlen Hpre] Hk.
  destruct (lookup_lt_is_Some_2 time_steps k) as [t Ht]; [lia|].
  destruct (lookup_lt_is_Some_2 tr k) as [w Hw].
  { rewrite length_trace. lia. }
  pose proof (trace_lookup_S p time_steps (w_initial p) k t w Ht Hw Hk)
    as Hnext.
  exists (<[S k := next_weight p t w]> synaptic_weight).
  split.
  - unfold loop_body, NumPy.getitem, NumPy.setitem.
    rewrite Ht. simpl. rewrite (Hpre k) by done. rewrite Hw. simpl.
    replace (k + 1) with (S k) by lia.
    unfold next_weight.
    destruct (in_window p t); rewrite decide_True by lia; done.
  - split; [by rewrite length_insert|].
    intros j Hj. destruct (decide (j = S k)) as [->|Hne].
    + rewrite list_lookup_insert_eq by lia. done.
    + rewrite list_lookup_insert_ne by done. apply Hpre. lia.
Qed.

Lemma for_each_inv (len start : nat) (synaptic_weight : list float) :
  loop_inv start synaptic_weight →
  start + len < length time_steps →
  ∃ synaptic_weight',
    for_each (loop_body p time_steps) (seq start len) synaptic_weight
    = Ok synaptic_weight'
    ∧ loop_inv (start + len) synaptic_weight'.
Proof.
  revert start synaptic_weight.
  induction len as [|len IH]; intros start a Hinv Hlt; simpl.
  - exists a. by rewrite Nat.add_0_r.
  - destruct (loop_body_inv start a Hinv) as (a' & -> & Hinv'); [lia|].
    simpl. destruct (IH (S start) a' Hinv') as (a'' & -> & Hinv''); [lia|].
    exists a''. split; [done|].
    by replace (start + S len) with (S start + len) by lia.
Qed.

Lemma loop_inv_final (synaptic_weight : list float) :
  loop_inv (length time_steps - 1) synaptic_weight →
  synaptic_weight = tr.
Proof.
  intros [Hlen Hpre]. apply list_eq. intros j.
  destruct (decide (j < length time_steps)) as [Hj|Hj].
  - apply Hpre. lia.
  - rewrite !lookup_ge_None_2; [done| |lia].
    rewrite length_trace. lia.
Qed.

End Loop.

(** On a non-empty grid the simulator returns the grid and the recurrence
    along it. *)
Lemma run_ltp_simulation_trace (p : params) (time_steps : list float) :
  NumPy.arange 0 (total_time p) (dt p) = Ok time_steps →
  time_steps ≠ [] →
  run_ltp_simulation p
  = Ok (time_steps, trace p time_steps (w_initial p)).
Proof.
  intros Hgrid Hne. unfold run_ltp_simulation. rewrite Hgrid. simpl.
  destruct (loop_inv_init p time_steps Hne) as [-> Hinv0]. simpl.
  unfold for_range.
  destruct (for_each_inv p time_steps (length time_steps - 1) 0 _ Hinv0)
    as (a & -> & Hinv).
  { destruct time_steps; simpl in *; [done|lia]. }
  simpl. by rewrite (loop_inv_final p time_steps a Hinv).
Qed.

(** On an empty grid the store of the initial weight raises. *)
Lemma run_ltp_simulation_empty (p : params) :
  NumPy.arange 0 (total_time p) (dt p) = Ok [] →
  run_ltp_simulation p = Raise IndexError.
Proof. intros Hgrid. unfold run_ltp_simulation. by rewrite Hgrid. Qed.

Lemma run_ltp_simulation_raise (p : params) (e : exn) :
  NumPy.arange 0 (total_time p) (dt p) = Raise e →
  run_ltp_simulation p = Raise e.
Proof. intros Hgrid. unfold run_ltp_simulation. by rewrite Hgrid. Qed.

(** What a successful run returned. *)
Lemma run_ltp_simulation_inv (p : params) (time_steps weight : list float) :
  run_ltp_simulation p = Ok (time_steps, weight) →
  NumPy.arange 0 (total_time p) (dt p) = Ok time_steps
  ∧ time_steps ≠ []
  ∧ weight = trace p time_steps (w_initial p).
Proof.
  intros Hrun.
  destruct (NumPy.arange 0 (total_time p) (dt p)) as [ts|e] eqn:Hgrid.
  - destruct ts as [|t ts].
    + by rewrite (run_ltp_simulation_empty p Hgrid) in Hrun.
    + rewrite (run_ltp_simulation_trace p (t :: ts) Hgrid) in Hrun by done.
      by injection Hrun as <- <-.
  - by rewrite (run_ltp_simulation_raise p e Hgrid) in Hrun.
Qed.

(** ** The grid *)

Lemma arange_lookup (start stop step : float) (time_steps : list float)
    (i : nat) (t : float) :
  NumPy.arange start stop step = Ok time_steps →
  time_steps !! i = Some t →
  t = NumPy.arange_item start step i.
Proof.
  unfold NumPy.arange.
  destruct (NumPy.arange_length start stop step) as [len|e]; simpl; [|done].
  intros [= <-]. rewrite list_lookup_fmap.
  destruct (seq 0 len !! i) as [k|] eqn:Hk; simpl; [|done].
  apply lookup_seq in Hk as [-> _]. by intros [= <-].
Qed.

(** A grid exists only for a step that is a number other than zero. *)
Lemma arange_step (start stop step : float) (time_steps : list float) :
  NumPy.arange start stop step = Ok time_steps →
  (step =? 0)%float = false ∧ PrimFloat.is_nan step = false.
Proof.
  unfold NumPy.arange, NumPy.arange_length.
  destruct (step =? 0)%float; [done|].
  destruct (PrimFloat.is_nan ((stop - start) / step)) eqn:Hq; [done|].
  intros _. split; [done|]. by apply Float64.div_not_nan in Hq.
Qed.

(** From a start at zero the grid is [0], [step], and then
    [0 + i * step]. *)
Lemma arange_item_zero (step : float) (i : nat) :
  (step =? 0)%float = false →
  PrimFloat.is_nan step = false →
  NumPy.arange_item 0 step i
  = match i with
    | 0 => 0%float
    | 1 => step
    | _ => (0 + NumPy.of_index i * step)%float
    end.
Proof.
  intros Hstep Hnan. destruct i as [|[|i]]; simpl; [done| |].
  - by apply Float64.add_zero_l_eq.
  - by rewrite (Float64.add_zero_l_eq step Hstep Hnan), Float64.sub_zero_r.
Qed.

(** ** The three conditions *)

Lemma setup_parameters_lookup (name : string) (p : params) :
  setup_parameters !! name = Some p →
  (name = "Healthy" ∧ p = inherit base_params 2.5 0.5)
  ∨ (name = "AD" ∧ p = inherit base_params 1.2 0.05)
  ∨ (name = "AD + Treatment" ∧ p = inherit base_params 2.5 0.5).
Proof.
  unfold setup_parameters. intros H.
  apply lookup_insert_Some in H as [[<- <-]|[_ H]]; [by left|].
  apply lookup_insert_Some in H as [[<- <-]|[_ H]]; [by right; left|].
  apply lookup_insert_Some in H as [[<- <-]|[_ H]]; [by right; right|].
  by rewrite lookup_empty in H.
Qed.

(** ** Checking a property on a run *)

Lemma run_satisfies_spec (p : params)
    (check : list float → list float → bool) :
  run_satisfies p check = true →
  ∃ time_steps weight,
    run_ltp_simulation p = Ok (time_steps, weight)
    ∧ check time_steps weight = true.
Proof.
  unfold run_satisfies.
  destruct (run_ltp_simulation p) as [[ts ws]|e]; [|done].
  intros H. by exists ts, ws.
Qed.

(** A property of each condition follows from its check on the three
    parameter records. *)
Lemma each_condition (P : params → Prop) :
  P (inherit base_params 2.5 0.5) →
  P (inherit base_params 1.2 0.05) →
  ∀ name p, setup_parameters !! name = Some p → P p.
Proof.
  intros HH HA name p Hp.
  by destruct (setup_parameters_lookup name p Hp)
    as [[_ ->]|[[_ ->]|[_ ->]]].
Qed.

Lemma forallb_lookup {A : Type} (f : A → bool) (l : list A) (i : nat) (x : A) :
  forallb f l = true → l !! i = Some x → f x = true.
Proof.
  intros H Hx. rewrite forallb_forall in H. apply H.
  apply list_elem_of_In, list_elem_of_lookup. by exists i.
Qed.

(** *** Every weight is at most [w_max] *)

Lemma bounded_by_w_max_sound (p : params) :
  run_satisfies p (bounded_by_w_max p) = true →
  ∃ time_steps weight,
    run_ltp_simulation p = Ok (time_steps, weight)
    ∧ (∀ i w, weight !! i = Some w → (w <=? w_max p)%float = true)
    ∧ ∃ w_final,
        last weight = Some w_final ∧ (w_final <=? w_max p)%float = true.
Proof.
  intros Hc. apply run_satisfies_spec in Hc as (ts & ws & Hrun & Hchk).
  exists ts, ws. split; [exact Hrun|].
  unfold bounded_by_w_max in Hchk.
  apply andb_prop in Hchk as [Hall Hlast]. split.
  - intros i w Hw. exact (forallb_lookup _ ws i w Hall Hw).
  - destruct (last ws) as [w|]; [by exists w|done].
Qed.

(** C3.  For each of the three conditions of [setup_parameters], every
    weight of the trace [run_ltp_simulation] returns is at most the
    condition's [w_max]; in particular the final weight is. *)
Theorem weight_at_most_w_max (name : string) (p : params) :
  setup_parameters !! name = Some p →
  ∃ time_steps weight,
    run_ltp_simulation p = Ok (time_steps, weight)
    ∧ (∀ i w, weight !! i = Some w → (w <=? w_max p)%float = true)
    ∧ ∃ w_final,
        last weight = Some w_final ∧ (w_final <=? w_max p)%float = true.
Proof.
  revert name p. apply each_condition.
  all: apply bounded_by_w_max_sound; vm_compute; reflexivity.
Qed.

Lemma weight_at_most_w_max_witness :
  setup_parameters !! "AD" = Some (inherit base_params 1.2 0.05)
  ∧ ∃ time_steps weight,
      run_ltp_simulation (inherit base_params 1.2 0.05)
      = Ok (time_steps, weight)
      ∧ (∀ i w, weight !! i = Some w
           → (w <=? w_max (inherit base_params 1.2 0.05))%float = true)
      ∧ ∃ w_final,
          last weight = Some w_final
          ∧ (w_final <=? w_max (inherit base_params 1.2 0.05))%float = true.
Proof.
  split; [vm_compute; reflexivity|].
  apply (weight_at_most_w_max "AD" (inherit base_params 1.2 0.05)).
  vm_compute; reflexivity.
Defined.

(** ** The update rule *)

(** C1, as the code has it.  On every parameter record for which
    [np.arange(0, total_time, dt)] returns a grid with a first point,
    [run_ltp_simulation] returns the grid and a weight trace of the same
    length with [weight[0] = w_initial].  The grid time is 0 at index 0,
    [dt] at index 1 and [i * dt] from index 2 on, and for every [i] with
    [i + 1] in range [weight[i+1]] is
    [weight[i] + learning_rate * (w_max - weight[i]) * dt] when the grid
    time of index [i] lies in the stimulation window and [weight[i]]
    otherwise. *)
Theorem run_ltp_simulation_recurrence (p : params)
    (time_steps : list float) :
  NumPy.arange 0 (total_time p) (dt p) = Ok time_steps →
  time_steps ≠ [] →
  ∃ weight,
    run_ltp_simulation p = Ok (time_steps, weight)
    ∧ length weight = length time_steps
    ∧ weight !! 0 = Some (w_initial p)
    ∧ (∀ i t, time_steps !! i = Some t →
         t = match i with
             | 0 => 0%float
             | 1 => dt p
             | _ => (0 + NumPy.of_index i * dt p)%float
             end
         ∧ (2 ≤ i → PrimFloat.is_nan t = false →
            (t =? NumPy.of_index i * dt p)%float = true))
    ∧ (∀ i t w,
         time_steps !! i = Some t →
         weight !! i = Some w →
         i + 1 < length weight →
         weight !! (i + 1)
         = Some (if (tetanus_start p <=? t)%float
                    && (t <? tetanus_end p)%float
                 then (w + learning_rate p * (w_max p - w) * dt p)%float
                 else w)).
Proof.
  intros Hgrid Hne. exists (trace p time_steps (w_initial p)).
  split; [by apply run_ltp_simulation_trace|].
  split; [apply length_trace|].
  split; [by apply trace_lookup_0|].
  split.
  - intros i t Ht.
    pose proof (arange_lookup _ _ _ _ _ _ Hgrid Ht) as Heq.
    destruct (arange_step _ _ _ _ Hgrid) as [Hstep Hnan].
    rewrite (arange_item_zero (dt p) i Hstep Hnan) in Heq.
    split; [exact Heq|]. intros Hi.
    destruct i as [|[|i]]; [lia|lia|].
    rewrite Heq. apply Float64.add_zero_l.
  - intros i t w Ht Hw Hi. rewrite length_trace in Hi.
    rewrite Nat.add_1_r in *.
    exact (trace_lookup_S p time_steps (w_initial p) i t w Ht Hw Hi).
Qed.

Lemma run_ltp_simulation_recurrence_witness :
  let p := inherit base_params 2.5 0.5 in
  NumPy.arange 0 (total_time p) (dt p) = Ok grid_100_01
  ∧ grid_100_01 ≠ []
  ∧ ∃ weight,
      run_ltp_simulation p = Ok (grid_100_01, weight)
      ∧ length weight = length grid_100_01
      ∧ weight !! 0 = Some (w_initial p)
      ∧ (∀ i t, grid_100_01 !! i = Some t →
           t = match i with
               | 0 => 0%float
               | 1 => dt p
               | _ => (0 + NumPy.of_index i * dt p)%float
               end
           ∧ (2 ≤ i → PrimFloat.is_nan t = false →
              (t =? NumPy.of_index i * dt p)%float = true))
      ∧ (∀ i t w,
           grid_100_01 !! i = Some t →
           weight !! i = Some w →
           i + 1 < length weight →
           weight !! (i + 1)
           = Some (if (tetanus_start p <=? t)%float
                      && (t <? tetanus_end p)%float
                   then (w + learning_rate p * (w_max p - w) * dt p)%float
                   else w)).
Proof.
  assert (grid_100_01 ≠ []) as Hne.
  { intros H. apply (f_equal length) in H. vm_compute in H.
    discriminate H. }
  split; [vm_compute; reflexivity|]. split; [exact Hne|].
  apply (run_ltp_simulation_recurrence (inherit base_params 2.5 0.5)
           grid_100_01).
  - vm_compute; reflexivity.
  - exact Hne.
Defined.

(** C1 as stated fails: on the record with a zero duration no trace is
    returned, so not every parameter record yields a trace that starts at
    [w_initial]. *)
Lemma run_ltp_simulation_no_trace_on_empty_grid :
  NumPy.arange 0 (total_time zero_duration) (dt zero_duration) = Ok []
  ∧ (∀ out, run_ltp_simulation zero_duration ≠ Ok out)
  ∧ ¬ (∀ p : params,
         ∃ time_steps weight,
           run_ltp_simulation p = Ok (time_steps, weight)
           ∧ weight !! 0 = Some (w_initial p)).
Proof.
  assert (run_ltp_simulation zero_duration = Raise IndexError) as Hraise
    by (vm_compute; reflexivity).
  split; [vm_compute; reflexivity|]. split.
  - intros out Hout. rewrite Hraise in Hout. discriminate Hout.
  - intros Hall. destruct (Hall zero_duration) as (ts & ws & Hout & _).
    rewrite Hraise in Hout. discriminate Hout.
Qed.

(** ** Monotone inside the window, constant outside *)

(** Outside the window the recurrence holds the weight: over a stretch of
    indices none of which lies in the window, the weight does not change. *)
Lemma trace_constant (p : params) (time_steps : list float) (w0 : float)
    (i j : nat) (wi wj : float) :
  i ≤ j →
  trace p time_steps w0 !! i = Some wi →
  trace p time_steps w0 !! j = Some wj →
  (∀ k t, i ≤ k < j → time_steps !! k = Some t → in_window p t = false) →
  wi = wj.
Proof.
  intros Hij Hi. revert wj. induction Hij as [|j Hij IH]; intros wj Hj Hout.
  - congruence.
  - assert (S j < length time_steps) as Hlen.
    { rewrite <- (length_trace p time_steps w0). by eapply lookup_lt_Some. }
    destruct (lookup_lt_is_Some_2 time_steps j) as [t Ht]; [lia|].
    destruct (lookup_lt_is_Some_2 (trace p time_steps w0) j) as [w Hw].
    { rewrite length_trace. lia. }
    rewrite (trace_lookup_S p time_steps w0 j t w Ht Hw Hlen) in Hj.
    injection Hj as <-. unfold next_weight.
    rewrite (Hout j t) by (done || lia).
    apply IH; [done|]. intros k t' Hk. apply Hout. lia.
Qed.

Lemma all_pairs_lookup {A : Type} (f : A → A → bool) (l : list A)
    (i j : nat) (x y : A) :
  all_pairs f l = true →
  i < j → l !! i = Some x → l !! j = Some y → f x y = true.
Proof.
  revert i j. induction l as [|a l IH]; intros i j Hall Hij Hx Hy; [done|].
  simpl in Hall. apply andb_prop in Hall as [Hhd Htl].
  destruct j as [|j]; [lia|]. destruct i as [|i]; simpl in *.
  - injection Hx as ->. by eapply forallb_lookup.
  - apply (IH i j); [done|lia|done|done].
Qed.

Lemma lookup_zip (time_steps weight : list float) (i : nat) (t w : float) :
  time_steps !! i = Some t → weight !! i = Some w →
  zip time_steps weight !! i = Some (t, w).
Proof.
  intros Ht Hw. apply lookup_zip_with_Some. by exists t, w.
Qed.

Lemma monotone_in_window_sound (p : params) :
  run_satisfies p (monotone_in_window p) = true →
  ∃ time_steps weight,
    run_ltp_simulation p = Ok (time_steps, weight)
    ∧ (∀ i j ti tj wi wj,
         i ≤ j →
         time_steps !! i = Some ti → time_steps !! j = Some tj →
         weight !! i = Some wi → weight !! j = Some wj →
         in_window p ti = true → in_window p tj = true →
         (wi <=? wj)%float = true)
    ∧ (∀ i j wi wj,
         i ≤ j →
         weight !! i = Some wi → weight !! j = Some wj →
         (∀ k t, i ≤ k ≤ j → time_steps !! k = Some t →
                 in_window p t = false) →
         wi = wj).
Proof.
  intros Hc. apply run_satisfies_spec in Hc as (ts & ws & Hrun & Hchk).
  exists ts, ws. split; [exact Hrun|].
  apply run_ltp_simulation_inv in Hrun as (_ & _ & ->).
  unfold monotone_in_window in Hchk.
  apply andb_prop in Hchk as [Hdiag Hpairs]. split.
  - intros i j ti tj wi wj Hij Hti Htj Hwi Hwj Hini Hinj.
    pose proof (lookup_zip _ _ _ _ _ Hti Hwi) as Hzi.
    pose proof (lookup_zip _ _ _ _ _ Htj Hwj) as Hzj.
    assert (window_le p (ti, wi) (tj, wj) = true) as Hle.
    { destruct (decide (i = j)) as [->|Hne].
      - assert ((ti, wi) = (tj, wj)) as <- by congruence.
        exact (forallb_lookup _ _ _ _ Hdiag Hzi).
      - apply (all_pairs_lookup _ _ i j _ _ Hpairs); [lia|done|done]. }
    unfold window_le in Hle. simpl in Hle.
    by rewrite Hini, Hinj in Hle.
  - intros i j wi wj Hij Hwi Hwj Hout.
    apply (trace_constant p ts (w_initial p) i j wi wj Hij Hwi Hwj).
    intros k t Hk. apply Hout. lia.
Qed.

(** C2.  For each of the three conditions of [setup_parameters], the weight
    trace is non-decreasing over the indices whose grid times lie in the
    stimulation window and constant over every run of indices whose grid
    times lie outside it. *)
Theorem weight_monotone_in_window_constant_outside
    (name : string) (p : params) :
  setup_parameters !! name = Some p →
  ∃ time_steps weight,
    run_ltp_simulation p = Ok (time_steps, weight)
    ∧ (∀ i j ti tj wi wj,
         i ≤ j →
         time_steps !! i = Some ti → time_steps !! j = Some tj →
         weight !! i = Some wi → weight !! j = Some wj →
         in_window p ti = true → in_window p tj = true →
         (wi <=? wj)%float = true)
    ∧ (∀ i j wi wj,
         i ≤ j →
         weight !! i = Some wi → weight !! j = Some wj →
         (∀ k t, i ≤ k ≤ j → time_steps !! k = Some t →
                 in_window p t = false) →
         wi = wj).
Proof.
  revert name p. apply each_condition.
  all: apply monotone_in_window_sound; vm_compute; reflexivity.
Qed.

Lemma weight_monotone_in_window_constant_outside_witness :
  let p := inherit base_params 2.5 0.5 in
  setup_parameters !! "Healthy" = Some p
  ∧ ∃ time_steps weight,
      run_ltp_simulation p = Ok (time_steps, weight)
      ∧ (∀ i j ti tj wi wj,
           i ≤ j →
           time_steps !! i = Some ti → time_steps !! j = Some tj →
           weight !! i = Some wi → weight !! j = Some wj →
           in_window p ti = true → in_window p tj = true →
           (wi <=? wj)%float = true)
      ∧ (∀ i j wi wj,
           i ≤ j →
           weight !! i = Some wi → weight !! j = Some wj →
           (∀ k t, i ≤ k ≤ j → time_steps !! k = Some t →
                   in_window p t = false) →
           wi = wj).
Proof.
  split; [vm_compute; reflexivity|].
  apply (weight_monotone_in_window_constant_outside "Healthy").
  vm_compute; reflexivity.
Defined.

(** ** The weight at the end of the stimulation *)

Lemma Qlt_bool_lt (x y : Q) : Qlt_bool x y = true → (x < y)%Q.
Proof.
  unfold Qlt_bool. intros H. apply Qnot_le_lt. intros Hle.
  apply Qle_bool_iff in Hle. by rewrite Hle in H.
Qed.

Lemma only_index_sound (time_steps : list float) (i : nat) (t : float) :
  only_index time_steps i t = true →
  ∀ j t', time_steps !! j = Some t' → (t' =? t)%float = true → j = i.
Proof.
  intros Hall j t' Ht' Heq.
  assert (zip (seq 0 (length time_steps)) time_steps !! j = Some (j, t'))
    as Hz.
  { apply lookup_zip_with_Some. exists j, t'. split; [done|]. split; [|done].
    apply lookup_seq. split; [done|]. by eapply lookup_lt_Some. }
  pose proof (forallb_lookup _ _ _ _ Hall Hz) as Hj. simpl in Hj.
  rewrite Heq in Hj. simpl in Hj. by apply Nat.eqb_eq.
Qed.

Lemma closer_at_sound (p q : params) (i : nat) (t : float) :
  closer_at p q i t = true →
  ∃ ts ws ts' ws' w w',
    run_ltp_simulation p = Ok (ts, ws)
    ∧ run_ltp_simulation q = Ok (ts', ws')
    ∧ ts !! i = Some t ∧ ts' !! i = Some t
    ∧ (∀ j tj, ts !! j = Some tj → (tj =? t)%float = true → j = i)
    ∧ (∀ j tj, ts' !! j = Some tj → (tj =? t)%float = true → j = i)
    ∧ ws !! i = Some w ∧ ws' !! i = Some w'
    ∧ (w_initial p <? w)%float = true
    ∧ (w <? w_max p)%float = true
    ∧ (w' <? w)%float = true
    ∧ (Qabs (F2Q (w_max p) - F2Q w) < Qabs (F2Q (w_max p) - F2Q w'))%Q
    ∧ (PrimFloat.abs (w_max p - w) <? PrimFloat.abs (w_max p - w'))%float
      = true.
Proof.
  unfold closer_at.
  destruct (run_ltp_simulation p) as [[ts ws]|]; [|done].
  destruct (run_ltp_simulation q) as [[ts' ws']|]; [|done].
  destruct (ts !! i) as [ti|] eqn:Hti; [|done].
  destruct (ts' !! i) as [ti'|] eqn:Hti'; [|done].
  destruct (ws !! i) as [w|] eqn:Hw; [|done].
  destruct (ws' !! i) as [w'|] eqn:Hw'; [|done].
  intros H. repeat (apply andb_prop in H as [H ?]).
  apply FloatAxioms.Leibniz.eqb_spec in H as ->.
  match goal with
  | E : PrimFloat.Leibniz.eqb ti' t = true |- _ =>
      apply FloatAxioms.Leibniz.eqb_spec in E as ->
  end.
  exists ts, ws, ts', ws', w, w'.
  do 4 (split; [done|]).
  split; [by apply only_index_sound|].
  split; [by apply only_index_sound|].
  do 5 (split; [done|]).
  split; [by apply Qlt_bool_lt|done].
Qed.

(** C4.  With the Healthy parameters ([w_max = 2.5], [learning_rate = 0.5],
    [dt = 0.1], window 40 to 45 s, [w_initial = 1.0], [total_time = 100])
    the weight at the grid point [t = 45 s] is strictly greater than
    [w_initial] and strictly less than [w_max], and its distance to [w_max]
    is strictly smaller than the distance of the AD trace's weight at
    [t = 45 s] to the Healthy [w_max], the AD run having the same timing. *)
Theorem healthy_weight_at_window_end :
  ∃ pH pA,
    setup_parameters !! "Healthy" = Some pH
    ∧ setup_parameters !! "AD" = Some pA
    ∧ pH = {| total_time := 100; dt := 0.1; w_initial := 1.0;
              tetanus_start := 40; tetanus_end := 45;
              w_max := 2.5; learning_rate := 0.5 |}
    ∧ (total_time pA, dt pA, tetanus_start pA, tetanus_end pA)
      = (total_time pH, dt pH, tetanus_start pH, tetanus_end pH)
    ∧ ∃ tsH wsH tsA wsA wH wA,
        run_ltp_simulation pH = Ok (tsH, wsH)
        ∧ run_ltp_simulation pA = Ok (tsA, wsA)
        ∧ tsH !! 450 = Some 45%float ∧ tsA !! 450 = Some 45%float
        ∧ (∀ j tj, tsH !! j = Some tj → (tj =? 45)%float = true → j = 450)
        ∧ (∀ j tj, tsA !! j = Some tj → (tj =? 45)%float = true → j = 450)
        ∧ wsH !! 450 = Some wH ∧ wsA !! 450 = Some wA
        ∧ (w_initial pH <? wH)%float = true
        ∧ (wH <? w_max pH)%float = true
        ∧ (wA <? wH)%float = true
        ∧ (Qabs (F2Q (w_max pH) - F2Q wH)
           < Qabs (F2Q (w_max pH) - F2Q wA))%Q
        ∧ (PrimFloat.abs (w_max pH - wH)
           <? PrimFloat.abs (w_max pH - wA))%float = true.
Proof.
  exists (inherit base_params 2.5 0.5), (inherit base_params 1.2 0.05).
  split; [vm_compute; reflexivity|].
  split; [vm_compute; reflexivity|].
  split; [reflexivity|]. split; [reflexivity|].
  apply closer_at_sound. vm_compute; reflexivity.
Qed.

(** ** The shape of the grid *)

Lemma grid_shape_sound (p : params) :
  run_satisfies p (grid_shape p) = true →
  ∃ time_steps weight,
    run_ltp_simulation p = Ok (time_steps, weight)
    ∧ length time_steps = 1000
    ∧ length weight = 1000
    ∧ (total_time p / dt p)%float = 1000%float
    ∧ NumPy.ceil (total_time p / dt p)%float = Some 1000%Z
    ∧ time_steps !! 0 = Some 0%float
    ∧ ∀ i t, time_steps !! i = Some t → (t <? total_time p)%float = true.
Proof.
  intros Hc. apply run_satisfies_spec in Hc as (ts & ws & Hrun & Hchk).
  exists ts, ws. split; [exact Hrun|]. clear Hrun.
  unfold grid_shape in Hchk.
  apply andb_prop in Hchk as [Hchk Hbelow].
  apply andb_prop in Hchk as [Hchk Hfirst].
  apply andb_prop in Hchk as [Hchk Hceil].
  apply andb_prop in Hchk as [Hchk Hquot].
  apply andb_prop in Hchk as [Hlen Hlen'].
  split; [apply Nat.eqb_eq; exact Hlen|].
  split; [apply Nat.eqb_eq; exact Hlen'|].
  split; [apply FloatAxioms.Leibniz.eqb_spec; exact Hquot|].
  split.
  { destruct (NumPy.ceil _) as [n|]; [|discriminate Hceil].
    f_equal. apply Z.eqb_eq. exact Hceil. }
  split.
  { destruct (ts !! 0) as [t|]; [|discriminate Hfirst]. f_equal.
    apply FloatAxioms.Leibniz.eqb_spec. exact Hfirst. }
  intros i t Ht.
  exact (forallb_lookup (fun t => (t <? total_time p)%float) ts i t
           Hbelow Ht).
Qed.

(** C5.  For each of the three conditions the time array and the weight
    array both have [total_time / dt] entries, 1000 for [total_time = 100]
    and [dt = 0.1]; the grid starts at 0 and every grid time is strictly
    below [total_time]. *)
Theorem trace_length_total_time_over_dt (name : string) (p : params) :
  setup_parameters !! name = Some p →
  ∃ time_steps weight,
    run_ltp_simulation p = Ok (time_steps, weight)
    ∧ length time_steps = 1000
    ∧ length weight = 1000
    ∧ (total_time p / dt p)%float = 1000%float
    ∧ NumPy.ceil (total_time p / dt p)%float = Some 1000%Z
    ∧ time_steps !! 0 = Some 0%float
    ∧ ∀ i t, time_steps !! i = Some t → (t <? total_time p)%float = true.
Proof.
  revert name p. apply each_condition.
  all: apply grid_shape_sound; vm_compute; reflexivity.
Qed.

Lemma trace_length_total_time_over_dt_witness :
  let p := inherit base_params 2.5 0.5 in
  setup_parameters !! "AD + Treatment" = Some p
  ∧ ∃ time_steps weight,
      run_ltp_simulation p = Ok (time_steps, weight)
      ∧ length time_steps = 1000
      ∧ length weight = 1000
      ∧ (total_time p / dt p)%float = 1000%float
      ∧ NumPy.ceil (total_time p / dt p)%float = Some 1000%Z
      ∧ time_steps !! 0 = Some 0%float
      ∧ ∀ i t, time_steps !! i = Some t → (t <? total_time p)%float = true.
Proof.
  split; [vm_compute; reflexivity|].
  apply (trace_length_total_time_over_dt "AD + Treatment").
  vm_compute; reflexivity.
Defined.

(** ** A zero learning rate *)

Lemma constant_at_sound (p : params) (w0 : float) :
  run_satisfies p (constant_at w0) = true →
  ∃ time_steps weight,
    run_ltp_simulation p = Ok (time_steps, weight)
    ∧ length weight = length time_steps
    ∧ weight ≠ []
    ∧ ∀ i w, weight !! i = Some w → w = w0.
Proof.
  intros Hc. apply run_satisfies_spec in Hc as (ts & ws & Hrun & Hchk).
  exists ts, ws. split; [exact Hrun|]. clear Hrun.
  unfold constant_at in Hchk.
  apply andb_prop in Hchk as [Hchk Hall].
  apply andb_prop in Hchk as [Hlen Hne].
  split; [apply Nat.eqb_eq; exact Hlen|]. split.
  { intros ->. discriminate Hne. }
  intros i w Hw. apply FloatAxioms.Leibniz.eqb_spec.
  exact (forallb_lookup (fun w => PrimFloat.Leibniz.eqb w w0) ws i w
           Hall Hw).
Qed.

(** C6.  With a learning rate equal to zero and the other parameters as in
    any of the three conditions, the weight trace equals [w_initial] at
    every index. *)
Theorem zero_learning_rate_constant_trace
    (name : string) (p : params) (lr : float) :
  setup_parameters !! name = Some p →
  (lr =? 0)%float = true →
  ∃ time_steps weight,
    run_ltp_simulation (with_learning_rate p lr) = Ok (time_steps, weight)
    ∧ length weight = length time_steps
    ∧ weight ≠ []
    ∧ ∀ i w, weight !! i = Some w → w = w_initial p.
Proof.
  intros Hp Hlr. revert name p Hp. apply each_condition.
  all: apply Float64.eqb_zero in Hlr as [-> | ->].
  all: apply (constant_at_sound (with_learning_rate _ _)).
  all: vm_compute; reflexivity.
Qed.

Lemma zero_learning_rate_constant_trace_witness :
  let p := inherit base_params 1.2 0.05 in
  setup_parameters !! "AD" = Some p
  ∧ (0 =? 0)%float = true
  ∧ ∃ time_steps weight,
      run_ltp_simulation (with_learning_rate p 0) = Ok (time_steps, weight)
      ∧ length weight = length time_steps
      ∧ weight ≠ []
      ∧ ∀ i w, weight !! i = Some w → w = w_initial p.
Proof.
  split; [vm_compute; reflexivity|].
  split; [vm_compute; reflexivity|].
  apply (zero_learning_rate_constant_trace "AD"); vm_compute; reflexivity.
Defined.

(** ** When a run returns and when it raises *)

Lemma arange_of_length (start stop step : float) (len : nat) :
  NumPy.arange_length start stop step = Ok len →
  NumPy.arange start stop step
  = Ok (NumPy.arange_item start step <$> seq 0 len).
Proof. unfold NumPy.arange. by intros ->. Qed.


(** X4.  A zero duration leaves the grid empty whatever the step, as long as
    the step is a number other than zero: the run raises [IndexError]. *)
Lemma run_ltp_simulation_zero_total_time (p : params) :
  (total_time p =? 0)%float = true →
  (dt p =? 0)%float = false →
  PrimFloat.is_nan (dt p) = false →
  run_ltp_simulation p = Raise IndexError.
Proof.
  intros Htotal Hdt Hnan. apply run_ltp_simulation_empty.
  rewrite (arange_of_length _ _ _ 0); [done|].
  unfold NumPy.arange_length. rewrite Hdt.
  destruct (Float64.zero_div (total_time p - 0) (dt p)) as [s Hs];
    [by apply Float64.zero_sub_zero|done|done|].
  unfold PrimFloat.is_nan. rewrite FloatAxioms.eqb_spec, Hs.
  unfold NumPy.ceil. rewrite Hs. simpl.
  by rewrite (Float64.zero_sub_zero _ Htotal), andb_false_r.
Qed.


(** A negative duration raises in the same way. *)
Example run_ltp_simulation_negative_duration :
  run_ltp_simulation {|
    total_time := -5; dt := 0.1; w_initial := 1.0;
    tetanus_start := 40; tetanus_end := 45;
    w_max := 2.5; learning_rate := 0.5 |}
  = Raise IndexError.
Proof. vm_compute; reflexivity. Qed.

(** A zero step raises before any array exists. *)
Example run_ltp_simulation_zero_step :
  run_ltp_simulation {|
    total_time := 100; dt := 0; w_initial := 1.0;
    tetanus_start := 40; tetanus_end := 45;
    w_max := 2.5; learning_rate := 0.5 |}
  = Raise ZeroDivisionError.
Proof. vm_compute; reflexivity. Qed.

(** An infinite step leaves one grid point: the run returns the one-point
    trace. *)
Example run_ltp_simulation_infinite_step :
  run_ltp_simulation {|
    total_time := 100; dt := infinity; w_initial := 1.0;
    tetanus_start := 40; tetanus_end := 45;
    w_max := 2.5; learning_rate := 0.5 |}
  = Ok ([0%float], [1.0%float]).
Proof. vm_compute; reflexivity. Qed.

(** So does a quotient [total_time / dt] that underflows to zero. *)
Example run_ltp_simulation_underflow :
  run_ltp_simulation {|
    total_time := 1e-300; dt := 1e300; w_initial := 1.0;
    tetanus_start := 40; tetanus_end := 45;
    w_max := 2.5; learning_rate := 0.5 |}
  = Ok ([0%float], [1.0%float]).
Proof. vm_compute; reflexivity. Qed.

(** A grid too long for an array raises [ValueError], and so does an
    infinite duration. *)
Example run_ltp_simulation_too_long :
  run_ltp_simulation {|
    total_time := 1e300; dt := 0.1; w_initial := 1.0;
    tetanus_start := 40; tetanus_end := 45;
    w_max := 2.5; learning_rate := 0.5 |}
  = Raise ValueError
  ∧ run_ltp_simulation {|
      total_time := infinity; dt := 0.1; w_initial := 1.0;
      tetanus_start := 40; tetanus_end := 45;
      w_max := 2.5; learning_rate := 0.5 |}
    = Raise ValueError.
Proof. split; vm_compute; reflexivity. Qed.

(** ** The parameter builder *)

Lemma float_neq (x y : float) : PrimFloat.Leibniz.eqb x y = false → x ≠ y.
Proof.
  intros H E. apply FloatAxioms.Leibniz.eqb_spec in E.
  rewrite E in H. discriminate H.
Qed.

(** C8.  [setup_parameters] has exactly the three conditions Healthy, AD
    and AD + Treatment; the three records share [total_time], [dt],
    [w_initial], [tetanus_start] and [tetanus_end], and differ only in
    [w_max] and [learning_rate]. *)
Theorem setup_parameters_conditions :
  dom setup_parameters
  = ({["Healthy"; "AD"; "AD + Treatment"]} : gset string)
  ∧ (∀ name p,
       setup_parameters !! name = Some p →
       total_time p = 100%float
       ∧ dt p = 0.1%float
       ∧ w_initial p = 1.0%float
       ∧ tetanus_start p = 40%float
       ∧ tetanus_end p = 45%float)
  ∧ ∃ pH pA pT,
      setup_parameters !! "Healthy" = Some pH
      ∧ setup_parameters !! "AD" = Some pA
      ∧ setup_parameters !! "AD + Treatment" = Some pT
      ∧ w_max pH = 2.5%float ∧ learning_rate pH = 0.5%float
      ∧ w_max pA = 1.2%float ∧ learning_rate pA = 0.05%float
      ∧ w_max pT = 2.5%float ∧ learning_rate pT = 0.5%float
      ∧ w_max pH ≠ w_max pA
      ∧ learning_rate pH ≠ learning_rate pA.
Proof.
  split; [|split].
  - unfold setup_parameters. rewrite !dom_insert_L, dom_empty_L.
    set_solver.
  - apply each_condition; by repeat split.
  - exists (inherit base_params 2.5 0.5), (inherit base_params 1.2 0.05),
      (inherit base_params 2.5 0.5).
    do 3 (split; [vm_compute; reflexivity|]).
    do 6 (split; [reflexivity|]).
    split; apply float_neq; vm_compute; reflexivity.
Qed.

(** C9.  The Healthy and the AD + Treatment records are equal field by
    field, with [w_max = 2.5] and [learning_rate = 0.5], and
    [run_ltp_simulation] returns the same time array and the same weight
    array for the two. *)
Theorem healthy_and_treated_runs_agree (pH pT : params) :
  setup_parameters !! "Healthy" = Some pH →
  setup_parameters !! "AD + Treatment" = Some pT →
  pH = pT
  ∧ w_max pH = 2.5%float ∧ learning_rate pH = 0.5%float
  ∧ w_max pT = 2.5%float ∧ learning_rate pT = 0.5%float
  ∧ ∃ time_steps weight,
      run_ltp_simulation pH = Ok (time_steps, weight)
      ∧ run_ltp_simulation pT = Ok (time_steps, weight)
      ∧ (∀ i, i < 1000 → is_Some (time_steps !! i) ∧ is_Some (weight !! i)).
Proof.
  assert (setup_parameters !! "Healthy" = Some (inherit base_params 2.5 0.5))
    as -> by (vm_compute; reflexivity).
  assert (setup_parameters !! "AD + Treatment"
          = Some (inherit base_params 2.5 0.5))
    as -> by (vm_compute; reflexivity).
  intros [= <-] [= <-]. do 5 (split; [reflexivity|]).
  destruct (grid_shape_sound (inherit base_params 2.5 0.5))
    as (ts & ws & Hrun & Hts & Hws & _); [vm_compute; reflexivity|].
  exists ts, ws. split; [exact Hrun|]. split; [exact Hrun|].
  intros i Hi. split; apply lookup_lt_is_Some_2; lia.
Qed.

Lemma healthy_and_treated_runs_agree_witness :
  let p := inherit base_params 2.5 0.5 in
  setup_parameters !! "Healthy" = Some p
  ∧ setup_parameters !! "AD + Treatment" = Some p
  ∧ p = p
  ∧ w_max p = 2.5%float ∧ learning_rate p = 0.5%float
  ∧ w_max p = 2.5%float ∧ learning_rate p = 0.5%float
  ∧ ∃ time_steps weight,
      run_ltp_simulation p = Ok (time_steps, weight)
      ∧ run_ltp_simulation p = Ok (time_steps, weight)
      ∧ (∀ i, i < 1000 → is_Some (time_steps !! i) ∧ is_Some (weight !! i)).
Proof.
  split; [vm_compute; reflexivity|]. split; [vm_compute; reflexivity|].
  apply (healthy_and_treated_runs_agree
           (inherit base_params 2.5 0.5) (inherit base_params 2.5 0.5));
    vm_compute; reflexivity.
Defined.

(** ** The window is half-open *)

(** C10.  The update is applied at step [i] exactly when
    [tetanus_start <= time[i] < tetanus_end].  So at a grid point whose
    time equals [tetanus_end] the weight is held, while the weight stored
    at that grid point is the result of the update made one step earlier,
    when that step's time lay in the window. *)
Theorem window_is_half_open (p : params) (time_steps weight : list float) :
  run_ltp_simulation p = Ok (time_steps, weight) →
  (∀ i t w,
     time_steps !! i = Some t → weight !! i = Some w →
     i + 1 < length weight →
     ((tetanus_start p <=? t)%float && (t <? tetanus_end p)%float = true →
      weight !! (i + 1)
      = Some (w + learning_rate p * (w_max p - w) * dt p)%float)
     ∧ ((tetanus_start p <=? t)%float && (t <? tetanus_end p)%float = false →
        weight !! (i + 1) = Some w))
  ∧ (∀ i t w,
       time_steps !! i = Some t → weight !! i = Some w →
       i + 1 < length weight →
       (t =? tetanus_end p)%float = true →
       weight !! (i + 1) = Some w)
  ∧ (∀ i t_prev w_prev t,
       time_steps !! i = Some t_prev → weight !! i = Some w_prev →
       time_steps !! (i + 1) = Some t →
       (t =? tetanus_end p)%float = true →
       (tetanus_start p <=? t_prev)%float
       && (t_prev <? tetanus_end p)%float = true →
       weight !! (i + 1)
       = Some (w_prev + learning_rate p * (w_max p - w_prev) * dt p)%float).
Proof.
  intros Hrun.
  apply run_ltp_simulation_inv in Hrun as (Hgrid & Hne & ->).
  assert (∀ i t w,
            time_steps !! i = Some t →
            trace p time_steps (w_initial p) !! i = Some w →
            i + 1 < length time_steps →
            trace p time_steps (w_initial p) !! (i + 1)
            = Some (next_weight p t w)) as Hstep.
  { intros i t w Ht Hw Hi. rewrite Nat.add_1_r in *.
    by apply trace_lookup_S. }
  rewrite length_trace. split; [|split].
  - intros i t w Ht Hw Hi. rewrite (Hstep i t w Ht Hw Hi).
    unfold next_weight, in_window, dw. split; by intros ->.
  - intros i t w Ht Hw Hi Hend. rewrite (Hstep i t w Ht Hw Hi).
    unfold next_weight, in_window.
    by rewrite (Float64.eqb_not_ltb _ _ Hend), andb_false_r.
  - intros i t_prev w_prev t Hprev Hw Ht _ Hin.
    rewrite (Hstep i t_prev w_prev Hprev Hw).
    + unfold next_weight, in_window, dw. by rewrite Hin.
    + by eapply lookup_lt_Some.
Qed.

Lemma window_is_half_open_witness :
  let p := inherit base_params 2.5 0.5 in
  let time_steps := grid_100_01 in
  let weight := trace p grid_100_01 (w_initial p) in
  run_ltp_simulation p = Ok (time_steps, weight)
  ∧ (∀ i t w,
       time_steps !! i = Some t → weight !! i = Some w →
       i + 1 < length weight →
       ((tetanus_start p <=? t)%float && (t <? tetanus_end p)%float = true →
        weight !! (i + 1)
        = Some (w + learning_rate p * (w_max p - w) * dt p)%float)
       ∧ ((tetanus_start p <=? t)%float && (t <? tetanus_end p)%float
          = false →
          weight !! (i + 1) = Some w))
  ∧ (∀ i t w,
       time_steps !! i = Some t → weight !! i = Some w →
       i + 1 < length weight →
       (t =? tetanus_end p)%float = true →
       weight !! (i + 1) = Some w)
  ∧ (∀ i t_prev w_prev t,
       time_steps !! i = Some t_prev → weight !! i = Some w_prev →
       time_steps !! (i + 1) = Some t →
       (t =? tetanus_end p)%float = true →
       (tetanus_start p <=? t_prev)%float
       && (t_prev <? tetanus_end p)%float = true →
       weight !! (i + 1)
       = Some (w_prev + learning_rate p * (w_max p - w_prev) * dt p)%float).
Proof.
  split; [vm_compute; reflexivity|].
  apply (window_is_half_open (inherit base_params 2.5 0.5) grid_100_01
           (trace (inherit base_params 2.5 0.5) grid_100_01
              (w_initial (inherit base_params 2.5 0.5)))).
  vm_compute; reflexivity.
Defined.

Lemma window_end_on_grid_sound (p : params) (i : nat) :
  run_satisfies p (window_end_on_grid p i) = true →
  ∃ time_steps weight t w,
    run_ltp_simulation p = Ok (time_steps, weight)
    ∧ time_steps !! i = Some t
    ∧ in_window p t = true
    ∧ time_steps !! (i + 1) = Some (tetanus_end p)
    ∧ in_window p (tetanus_end p) = false
    ∧ weight !! i = Some w
    ∧ weight !! (i + 1) = Some (w + dw p w)%float
    ∧ weight !! (i + 2) = Some (w + dw p w)%float
    ∧ (w <? w + dw p w)%float = true.
Proof.
  intros Hc. apply run_satisfies_spec in Hc as (ts & ws & Hrun & Hchk).
  unfold window_end_on_grid in Hchk.
  destruct (ts !! i) as [t|] eqn:Ht; [|discriminate Hchk].
  destruct (ts !! (i + 1)) as [t_end|] eqn:Hte; [|discriminate Hchk].
  destruct (ws !! i) as [w|] eqn:Hw; [|discriminate Hchk].
  destruct (ws !! (i + 1)) as [w_end|] eqn:Hwe; [|discriminate Hchk].
  destruct (ws !! (i + 2)) as [w_after|] eqn:Hwa; [|discriminate Hchk].
  apply andb_prop in Hchk as [Hchk Hlt].
  apply andb_prop in Hchk as [Hchk Hafter].
  apply andb_prop in Hchk as [Hchk Hend].
  apply andb_prop in Hchk as [Hchk Hout].
  apply andb_prop in Hchk as [Hin Htend].
  apply FloatAxioms.Leibniz.eqb_spec in Htend, Hend, Hafter.
  apply negb_true_iff in Hout. subst t_end w_after w_end.
  exists ts, ws, t, w. by repeat split.
Qed.

(** In each of the three conditions the end of the window is a grid point,
    the one of index 450; the weight is held there, and the weight stored
    there is the update of the step before. *)
Lemma window_end_is_grid_point (name : string) (p : params) :
  setup_parameters !! name = Some p →
  ∃ time_steps weight t w,
    run_ltp_simulation p = Ok (time_steps, weight)
    ∧ time_steps !! 449 = Some t
    ∧ in_window p t = true
    ∧ time_steps !! (449 + 1) = Some (tetanus_end p)
    ∧ in_window p (tetanus_end p) = false
    ∧ weight !! 449 = Some w
    ∧ weight !! (449 + 1) = Some (w + dw p w)%float
    ∧ weight !! (449 + 2) = Some (w + dw p w)%float
    ∧ (w <? w + dw p w)%float = true.
Proof.
  revert name p. apply each_condition.
  all: apply window_end_on_grid_sound; vm_compute; reflexivity.
Qed.

(** * Further properties of the simulator *)

(** ** The order of binary64 *)

Module Float64Order.

(** The comparison of two finite numbers of the same sign, on their
    exponents and then on their mantissas. *)
Lemma lex_lt_trans (e1 e2 e3 : Z) (m1 m2 m3 : positive) (c : comparison) :
  match (e1 ?= e2)%Z with
  | Lt => Lt | Gt => Gt | Eq => Pos.compare_cont Eq m1 m2
  end = c →
  c ≠ Gt →
  match (e2 ?= e3)%Z with
  | Lt => Lt | Gt => Gt | Eq => Pos.compare_cont Eq m2 m3
  end = Lt →
  match (e1 ?= e3)%Z with
  | Lt => Lt | Gt => Gt | Eq => Pos.compare_cont Eq m1 m3
  end = Lt.
Proof.
  change (Pos.compare_cont Eq m1 m2) with (Pos.compare m1 m2).
  change (Pos.compare_cont Eq m2 m3) with (Pos.compare m2 m3).
  change (Pos.compare_cont Eq m1 m3) with (Pos.compare m1 m3).
  intros <- Hc H23.
  destruct (Z.compare_spec e1 e2) as [He12|He12|He12];
    destruct (Z.compare_spec e2 e3) as [He23|He23|He23];
    destruct (Z.compare_spec e1 e3) as [He13|He13|He13];
    try lia; try done.
  destruct (Pos.compare_spec m1 m2) as [Hm12|Hm12|Hm12];
    destruct (Pos.compare_spec m2 m3) as [Hm23|Hm23|Hm23];
    destruct (Pos.compare_spec m1 m3) as [Hm13|Hm13|Hm13];
    try lia; try done.
Qed.

Lemma lex_gt_trans (e1 e2 e3 : Z) (m1 m2 m3 : positive) (c : comparison) :
  match (e1 ?= e2)%Z with
  | Lt => Gt | Gt => Lt | Eq => CompOpp (Pos.compare_cont Eq m1 m2)
  end = c →
  c ≠ Gt →
  match (e2 ?= e3)%Z with
  | Lt => Gt | Gt => Lt | Eq => CompOpp (Pos.compare_cont Eq m2 m3)
  end = Lt →
  match (e1 ?= e3)%Z with
  | Lt => Gt | Gt => Lt | Eq => CompOpp (Pos.compare_cont Eq m1 m3)
  end = Lt.
Proof.
  change (Pos.compare_cont Eq m1 m2) with (Pos.compare m1 m2).
  change (Pos.compare_cont Eq m2 m3) with (Pos.compare m2 m3).
  change (Pos.compare_cont Eq m1 m3) with (Pos.compare m1 m3).
  intros <- Hc H23.
  destruct (Z.compare_spec e1 e2) as [He12|He12|He12];
    destruct (Z.compare_spec e2 e3) as [He23|He23|He23];
    destruct (Z.compare_spec e1 e3) as [He13|He13|He13];
    try lia; try done.
  destruct (Pos.compare_spec m1 m2) as [Hm12|Hm12|Hm12];
    destruct (Pos.compare_spec m2 m3) as [Hm23|Hm23|Hm23];
    destruct (Pos.compare_spec m1 m3) as [Hm13|Hm13|Hm13];
    simpl in *; try lia; try done.
Qed.

Lemma SFleb_SFltb_trans (x y z : spec_float) :
  SFleb x y = true → SFltb y z = true → SFltb x z = true.
Proof.
  unfold SFleb, SFltb.
  destruct x as [sx|sx| |sx mx ex], y as [sy|sy| |sy my ey],
    z as [sz|sz| |sz mz ez]; simpl; try done.
  all: try (destruct sx; try done); try (destruct sy; try done);
    try (destruct sz; try done).
  - intros H1 H2.
    rewrite (lex_gt_trans ex ey ez mx my mz _ eq_refl); [done| |].
    + intros E. by rewrite E in H1.
    + by destruct (match (ey ?= ez)%Z with
                   | Lt => Gt | Gt => Lt
                   | Eq => CompOpp (Pos.compare_cont Eq my mz) end).
  - intros H1 H2.
    rewrite (lex_lt_trans ex ey ez mx my mz _ eq_refl); [done| |].
    + intros E. by rewrite E in H1.
    + by destruct (match (ey ?= ez)%Z with
                   | Lt => Lt | Gt => Gt
                   | Eq => Pos.compare_cont Eq my mz end).
Qed.

(** [a <= t] and [t < b] give [a < b]. *)
Lemma leb_ltb_trans (a t b : float) :
  (a <=? t)%float = true → (t <? b)%float = true → (a <? b)%float = true.
Proof.
  rewrite FloatAxioms.leb_spec, !FloatAxioms.ltb_spec.
  apply SFleb_SFltb_trans.
Qed.

End Float64Order.

(** ** Steps outside the window, for every parameter record *)

(** X1.  Whatever the parameters, the weight does not change across a
    stretch of steps whose grid times lie outside the window; in
    particular it is still [w_initial] at every index that no in-window
    step precedes. *)
Theorem weight_held_outside_window (p : params)
    (time_steps weights : list float) :
  run_ltp_simulation p = Ok (time_steps, weights) →
  (∀ i j wi wj,
     i ≤ j → weights !! i = Some wi → weights !! j = Some wj →
     (∀ k t, i ≤ k < j → time_steps !! k = Some t →
             in_window p t = false) →
     wi = wj)
  ∧ (∀ j w,
       weights !! j = Some w →
       (∀ k t, k < j → time_steps !! k = Some t → in_window p t = false) →
       w = w_initial p).
Proof.
  intros Hrun.
  apply run_ltp_simulation_inv in Hrun as (_ & Hne & ->). split.
  - intros i j wi wj. apply trace_constant.
  - intros j w Hw Hout. symmetry.
    apply (trace_constant p time_steps (w_initial p) 0 j); [lia| |done|].
    + by apply trace_lookup_0.
    + intros k t Hk. apply Hout. lia.
Qed.

Lemma weight_held_outside_window_witness :
  let p := inherit base_params 2.5 0.5 in
  let time_steps := grid_100_01 in
  let weights := trace p grid_100_01 (w_initial p) in
  run_ltp_simulation p = Ok (time_steps, weights)
  ∧ (∀ i j wi wj,
       i ≤ j → weights !! i = Some wi → weights !! j = Some wj →
       (∀ k t, i ≤ k < j → time_steps !! k = Some t →
               in_window p t = false) →
       wi = wj)
  ∧ (∀ j w,
       weights !! j = Some w →
       (∀ k t, k < j → time_steps !! k = Some t → in_window p t = false) →
       w = w_initial p).
Proof.
  split; [vm_compute; reflexivity|].
  apply (weight_held_outside_window (inherit base_params 2.5 0.5)
           grid_100_01
           (trace (inherit base_params 2.5 0.5) grid_100_01
              (w_initial (inherit base_params 2.5 0.5)))).
  vm_compute; reflexivity.
Defined.

(** ** A window that is empty *)

Lemma in_window_empty (p : params) (t : float) :
  (tetanus_start p <? tetanus_end p)%float = false →
  in_window p t = false.
Proof.
  intros Hempty. unfold in_window.
  destruct (tetanus_start p <=? t)%float eqn:Hle; [|done].
  destruct (t <? tetanus_end p)%float eqn:Hlt; [|done].
  by rewrite (Float64Order.leb_ltb_trans _ _ _ Hle Hlt) in Hempty.
Qed.

(** X2.  When [tetanus_start < tetanus_end] does not hold (the end is not after
    the start, or one of the two is NaN) no step potentiates: every weight
    of the trace is [w_initial], whatever the other parameters. *)
Theorem empty_window_never_potentiates (p : params)
    (time_steps weights : list float) :
  run_ltp_simulation p = Ok (time_steps, weights) →
  (tetanus_start p <? tetanus_end p)%float = false →
  ∀ i w, weights !! i = Some w → w = w_initial p.
Proof.
  intros Hrun Hempty i w Hw.
  apply run_ltp_simulation_inv in Hrun as (_ & Hne & ->). symmetry.
  apply (trace_constant p time_steps (w_initial p) 0 i); [lia| |done|].
  - by apply trace_lookup_0.
  - intros k t _ _. by apply in_window_empty.
Qed.

Lemma empty_window_never_potentiates_witness :
  let p := inverted_window in
  let weights := trace p grid_100_01 (w_initial p) in
  run_ltp_simulation p = Ok (grid_100_01, weights)
  ∧ (tetanus_start p <? tetanus_end p)%float = false
  ∧ ∀ i w, weights !! i = Some w → w = w_initial p.
Proof.
  split; [vm_compute; reflexivity|]. split; [vm_compute; reflexivity|].
  apply (empty_window_never_potentiates inverted_window grid_100_01
           (trace inverted_window grid_100_01 (w_initial inverted_window))).
  - vm_compute; reflexivity.
  - vm_compute; reflexivity.
Defined.

(** ** A longer duration extends the run *)

Lemma arange_shape (start stop step : float) (time_steps : list float) :
  NumPy.arange start stop step = Ok time_steps →
  time_steps = NumPy.arange_item start step <$> seq 0 (length time_steps).
Proof.
  unfold NumPy.arange.
  destruct (NumPy.arange_length start stop step) as [len|e]; simpl; [|done].
  intros [= <-]. by rewrite length_fmap, length_seq.
Qed.

Lemma trace_take (p : params) (time_steps : list float) (w : float)
    (n : nat) :
  take n (trace p time_steps w) = trace p (take n time_steps) w.
Proof.
  revert w n. induction time_steps as [|t rest IH]; intros w n.
  - by destruct n.
  - destruct n as [|n]; simpl; [done|]. by rewrite IH.
Qed.

Lemma trace_with_total_time (p : params) (T : float)
    (time_steps : list float) (w : float) :
  trace (with_total_time p T) time_steps w = trace p time_steps w.
Proof.
  revert w. induction time_steps as [|t rest IH]; intros w; simpl; [done|].
  by rewrite IH.
Qed.

(** X3.  Two runs that differ in [total_time] only agree as far as the shorter
    one goes: its time array and its weight array are the initial segments
    of the longer run's arrays. *)
Theorem longer_duration_extends_run (p : params) (T : float)
    (time_steps weights time_steps' weights' : list float) :
  run_ltp_simulation p = Ok (time_steps, weights) →
  run_ltp_simulation (with_total_time p T) = Ok (time_steps', weights') →
  length time_steps ≤ length time_steps' →
  time_steps = take (length time_steps) time_steps'
  ∧ weights = take (length time_steps) weights'.
Proof.
  intros Hrun Hrun' Hlen.
  apply run_ltp_simulation_inv in Hrun as (Hgrid & _ & ->).
  apply run_ltp_simulation_inv in Hrun' as (Hgrid' & _ & ->).
  simpl in Hgrid'.
  assert (time_steps = take (length time_steps) time_steps') as Htake.
  { rewrite (arange_shape _ _ _ _ Hgrid) at 1.
    rewrite (arange_shape _ _ _ _ Hgrid') at 1.
    rewrite <- fmap_take, take_seq. by rewrite Nat.min_l. }
  split; [exact Htake|].
  rewrite trace_take, trace_with_total_time. simpl. by rewrite <- Htake.
Qed.

Lemma longer_duration_extends_run_witness :
  let p := with_total_time (inherit base_params 2.5 0.5) 50 in
  let time_steps := (fun i => 0 + NumPy.of_index i * 0.1)%float <$> seq 0 500 in
  let weights := trace p time_steps (w_initial p) in
  let weights' := trace p grid_100_01 (w_initial p) in
  run_ltp_simulation p = Ok (time_steps, weights)
  ∧ run_ltp_simulation (with_total_time p 100) = Ok (grid_100_01, weights')
  ∧ length time_steps ≤ length grid_100_01
  ∧ time_steps = take (length time_steps) grid_100_01
  ∧ weights = take (length time_steps) weights'.
Proof.
  split; [vm_compute; reflexivity|]. split; [vm_compute; reflexivity|].
  split; [apply Nat.leb_le; vm_compute; reflexivity|].
  apply (longer_duration_extends_run
           (with_total_time (inherit base_params 2.5 0.5) 50) 100).
  - vm_compute; reflexivity.
  - vm_compute; reflexivity.
  - apply Nat.leb_le; vm_compute; reflexivity.
Defined.

(** ** A zero duration *)

Lemma run_ltp_simulation_zero_total_time_witness :
  (total_time zero_duration =? 0)%float = true
  ∧ (dt zero_duration =? 0)%float = false
  ∧ PrimFloat.is_nan (dt zero_duration) = false
  ∧ run_ltp_simulation zero_duration = Raise IndexError.
Proof.
  do 3 (split; [vm_compute; reflexivity|]).
  apply (run_ltp_simulation_zero_total_time zero_duration);
    vm_compute; reflexivity.
Defined.

(** * The main block and the plotter *)

(** ** The loop over the conditions *)

Lemma setup_parameters_items_map :
  list_to_map setup_parameters_items = setup_parameters.
Proof. reflexivity. Qed.

Lemma run_conditions_cons (condition_name : string)
    (condition_params : params) (rest : list (string * params))
    (results : gmap string condition_result)
    (time_steps weights : list float) :
  run_ltp_simulation condition_params = Ok (time_steps, weights) →
  run_conditions ((condition_name, condition_params) :: rest) results
  = run_conditions rest
      (<[condition_name := {| time := time_steps; weight := weights |}]>
         results).
Proof. intros H. simpl. by rewrite H. Qed.

Lemma run_conditions_raise (condition_name : string)
    (condition_params : params) (rest : list (string * params))
    (results : gmap string condition_result) (e : exn) :
  run_ltp_simulation condition_params = Raise e →
  run_conditions ((condition_name, condition_params) :: rest) results
  = Raise e.
Proof. intros H. simpl. by rewrite H. Qed.

Lemma run_conditions_all_return (items : list (string * params))
    (init : gmap string condition_result) :
  (∃ results, run_conditions items init = Ok results)
  ↔ ∀ name p, (name, p) ∈ items → ∃ out, run_ltp_simulation p = Ok out.
Proof.
  revert init. induction items as [|[n p] rest IH]; intros init.
  - split; [|by exists init]. intros _ name p Hin.
    by apply elem_of_nil in Hin.
  - destruct (run_ltp_simulation p) as [[ts ws]|e] eqn:Hrun.
    + rewrite (run_conditions_cons n p rest init ts ws Hrun), IH.
      split.
      * intros Hrest name q [[= -> ->]|Hin]%elem_of_cons; [by eexists|].
        by apply (Hrest name).
      * intros Hall name q Hin. apply (Hall name). by right.
    + rewrite (run_conditions_raise n p rest init e Hrun). split.
      * by intros [results ?].
      * intros Hall. destruct (Hall n p) as [out Hout]; [by left|].
        congruence.
Qed.

Lemma run_conditions_first_raise (items : list (string * params))
    (init : gmap string condition_result) (e : exn) :
  run_conditions items init = Raise e
  ↔ ∃ before name p after,
      items = before ++ (name, p) :: after
      ∧ (∀ n q, (n, q) ∈ before → ∃ out, run_ltp_simulation q = Ok out)
      ∧ run_ltp_simulation p = Raise e.
Proof.
  revert init. induction items as [|[n p] rest IH]; intros init.
  - split; [done|]. intros (before & name & q & after & Heq & _).
    by destruct before.
  - destruct (run_ltp_simulation p) as [[ts ws]|e0] eqn:Hrun.
    + rewrite (run_conditions_cons n p rest init ts ws Hrun), IH. split.
      * intros (before & name & q & after & -> & Hbefore & Hq).
        exists ((n, p) :: before), name, q, after. split; [done|].
        split; [|done].
        intros n' q' [[= -> ->]|Hin]%elem_of_cons; [by eexists|].
        by apply (Hbefore n').
      * intros (before & name & q & after & Heq & Hbefore & Hq).
        destruct before as [|b before]; simpl in Heq.
        -- injection Heq as <- <- <-. congruence.
        -- injection Heq as <- ->. exists before, name, q, after.
           split; [done|]. split; [|done].
           intros n' q' Hin. apply (Hbefore n'). by right.
    + rewrite (run_conditions_raise n p rest init e0 Hrun). split.
      * intros [= <-]. exists [], n, p, rest. split; [done|].
        split; [|done]. intros n' q' Hin. by apply elem_of_nil in Hin.
      * intros (before & name & q & after & Heq & Hbefore & Hq).
        destruct before as [|b before]; simpl in Heq.
        -- injection Heq as <- <- <-. congruence.
        -- injection Heq as <- ->.
           destruct (Hbefore n p) as [out Hout]; [by left|]. congruence.
Qed.

(** X5.  Whatever the results dictionary holds at the start, the loop
    returns exactly when the run of every entry returns.  Otherwise it
    raises the exception of the first entry, in the order of the items,
    whose run raises, the runs of the entries before it having returned. *)
Theorem run_conditions_succeeds_iff (items : list (string * params))
    (init : gmap string condition_result) :
  ((∃ results, run_conditions items init = Ok results)
   ↔ ∀ name p, (name, p) ∈ items → ∃ out, run_ltp_simulation p = Ok out)
  ∧ ∀ e,
      run_conditions items init = Raise e
      ↔ ∃ before name p after,
          items = before ++ (name, p) :: after
          ∧ (∀ n q, (n, q) ∈ before →
                    ∃ out, run_ltp_simulation q = Ok out)
          ∧ run_ltp_simulation p = Raise e.
Proof.
  split.
  - apply run_conditions_all_return.
  - intros e. apply run_conditions_first_raise.
Qed.

Lemma run_conditions_lookup_from (items : list (string * params))
    (init results : gmap string condition_result) :
  NoDup (items.*1) →
  run_conditions items init = Ok results →
  ∀ name r,
    results !! name = Some r
    ↔ (∃ p, (name, p) ∈ items
            ∧ run_ltp_simulation p = Ok (time r, weight r))
      ∨ ((name ∉ items.*1) ∧ init !! name = Some r).
Proof.
  revert init. induction items as [|[n p] rest IH]; intros init Hnd Hrun.
  - injection Hrun as <-. intros name r. split.
    + intros H. right. split; [apply not_elem_of_nil|done].
    + intros [(q & Hin & _)|[_ H]]; [by apply elem_of_nil in Hin|done].
  - apply NoDup_cons in Hnd as [Hn Hnd]. simpl in Hn.
    destruct (run_ltp_simulation p) as [[ts ws]|e] eqn:Hp;
      [|by rewrite (run_conditions_raise n p rest init e Hp) in Hrun].
    rewrite (run_conditions_cons n p rest init ts ws Hp) in Hrun.
    intros name r. rewrite (IH _ Hnd Hrun name r). simpl. split.
    + intros [(q & Hin & Hq)|[Hout Hinit]].
      * left. exists q. split; [by right|done].
      * destruct (decide (n = name)) as [->|Hne].
        -- rewrite lookup_insert_eq in Hinit. injection Hinit as <-.
           left. exists p. split; [by left|done].
        -- rewrite lookup_insert_ne in Hinit by done. right.
           split; [|done]. by intros [->|?]%elem_of_cons.
    + intros [(q & [[= -> ->]|Hin]%elem_of_cons & Hq)|[Hout Hinit]].
      * right. split; [done|]. rewrite lookup_insert_eq. f_equal.
        rewrite Hp in Hq. injection Hq as -> ->. by destruct r.
      * left. by exists q.
      * right. apply not_elem_of_cons in Hout as [Hne Hout].
        split; [done|]. by rewrite lookup_insert_ne.
Qed.

(** X6.  When the loop returns, on items of distinct names, the results hold
    one entry per item and nothing else: the entry of a name is the pair
    of arrays the run of that name's parameters returned. *)
Theorem run_conditions_lookup (items : list (string * params))
    (results : gmap string condition_result) :
  NoDup (items.*1) →
  run_conditions items ∅ = Ok results →
  ∀ name r,
    results !! name = Some r
    ↔ ∃ p, (name, p) ∈ items
           ∧ run_ltp_simulation p = Ok (time r, weight r).
Proof.
  intros Hnd Hrun name r.
  rewrite (run_conditions_lookup_from items ∅ results Hnd Hrun name r).
  split; [|by left]. intros [H|[_ H]]; [done|].
  by rewrite lookup_empty in H.
Qed.

Lemma run_conditions_lookup_witness :
  let healthy := inherit base_params 2.5 0.5 in
  let ad := inherit base_params 1.2 0.05 in
  let results : gmap string condition_result :=
    <["AD + Treatment" :=
        {| time := grid_100_01;
           weight := trace healthy grid_100_01 (w_initial healthy) |}]>
    (<["AD" :=
        {| time := grid_100_01;
           weight := trace ad grid_100_01 (w_initial ad) |}]>
    (<["Healthy" :=
        {| time := grid_100_01;
           weight := trace healthy grid_100_01 (w_initial healthy) |}]> ∅))
  in
  NoDup (setup_parameters_items.*1)
  ∧ run_conditions setup_parameters_items ∅ = Ok results
  ∧ ∀ name r,
      results !! name = Some r
      ↔ ∃ p, (name, p) ∈ setup_parameters_items
             ∧ run_ltp_simulation p = Ok (time r, weight r).
Proof.
  assert (NoDup (setup_parameters_items.*1)) as Hnd
    by (apply (bool_decide_unpack _); vm_compute; exact I).
  split; [exact Hnd|]. split; [vm_compute; reflexivity|].
  apply (run_conditions_lookup setup_parameters_items); [exact Hnd|].
  vm_compute; reflexivity.
Defined.

(** ** The plotter *)

Lemma ylim_Done (top : float) :
  (∃ c, ylim 0 top = Done c) ↔ PrimFloat.is_finite top = true.
Proof.
  unfold ylim. change (PrimFloat.is_finite 0) with true. simpl.
  destruct (PrimFloat.is_finite top); split; try done.
  - by eexists.
  - by intros [? ?].
Qed.

(** X7.  The plotter returns a figure exactly when the results hold the
    three conditions, each with a time array and a weight array of one
    length, and the parameters hold the Healthy record with a y limit
    [w_max + 0.5] that is finite; a missing key, a pair of arrays of
    different lengths or a limit that is NaN or infinite makes it raise. *)
Theorem plot_comparative_results_succeeds_iff
    (all_results : gmap string condition_result)
    (all_params : gmap string params) :
  (∃ fig, plot_comparative_results all_results all_params = Done fig)
  ↔ (∃ healthy ad treated,
       all_results !! "Healthy" = Some healthy
       ∧ all_results !! "AD" = Some ad
       ∧ all_results !! "AD + Treatment" = Some treated
       ∧ length (time healthy) = length (weight healthy)
       ∧ length (time ad) = length (weight ad)
       ∧ length (time treated) = length (weight treated))
    ∧ ∃ healthy_params,
        all_params !! "Healthy" = Some healthy_params
        ∧ PrimFloat.is_finite (w_max healthy_params + 0.5)%float = true.
Proof.
  unfold plot_comparative_results, getkey, plot.
  destruct (all_results !! "Healthy") as [h|]; simpl;
    [|split; [by intros [? ?]|by intros [(?&?&?&?&_) _]]].
  destruct (decide (length (time h) = length (weight h))) as [Hh|Hh]; simpl;
    [|split; [by intros [? ?]|intros [(?&?&?&[= <-]&_&_&?&_) _]; done]].
  destruct (all_results !! "AD") as [a|]; simpl;
    [|split; [by intros [? ?]|by intros [(?&?&?&_&?&_) _]]].
  destruct (decide (length (time a) = length (weight a))) as [Ha|Ha]; simpl;
    [|split; [by intros [? ?]|intros [(?&?&?&_&[= <-]&_&_&?&_) _]; done]].
  destruct (all_results !! "AD + Treatment") as [t|]; simpl;
    [|split; [by intros [? ?]|by intros [(?&?&?&_&_&?&_) _]]].
  destruct (decide (length (time t) = length (weight t))) as [Ht|Ht]; simpl;
    [|split; [by intros [? ?]|intros [(?&?&?&_&_&[= <-]&_&_&?) _]; done]].
  destruct (all_params !! "Healthy") as [hp|]; simpl;
    [|split; [by intros [? ?]|by intros [_ (?&?&_)]]].
  pose proof (ylim_Done (w_max hp + 0.5)) as Hlim.
  destruct (ylim 0 (w_max hp + 0.5)) as [c|e]; simpl.
  - split; [|by eexists]. intros _. split; [by exists h, a, t|].
    exists hp. split; [done|]. apply Hlim. by eexists.
  - split; [by intros [? ?]|]. intros [_ (hp' & [= <-] & Hfin)].
    apply Hlim in Hfin as [c Hc]. done.
Qed.

(** X8.  The plotter reads the three named results and the Healthy parameter
    record and nothing else: the window it shades and the y limit it sets
    are the Healthy record's, whatever the other records hold. *)
Theorem plot_comparative_results_reads_only
    (results results' : gmap string condition_result)
    (all_params all_params' : gmap string params) :
  results !! "Healthy" = results' !! "Healthy" →
  results !! "AD" = results' !! "AD" →
  results !! "AD + Treatment" = results' !! "AD + Treatment" →
  all_params !! "Healthy" = all_params' !! "Healthy" →
  plot_comparative_results results all_params
  = plot_comparative_results results' all_params'.
Proof.
  intros Hh Ha Ht Hp. unfold plot_comparative_results, getkey.
  by rewrite Hh, Ha, Ht, Hp.
Qed.

Lemma plot_comparative_results_reads_only_witness :
  let r := {| time := [0; 1]%float; weight := [1; 2]%float |} in
  let results : gmap string condition_result :=
    <["Healthy" := r]> (<["AD" := r]> (<["AD + Treatment" := r]> ∅)) in
  let results' := <["Untreated" := r]> results in
  let all_params' := <["AD" := inverted_window]> setup_parameters in
  results !! "Healthy" = results' !! "Healthy"
  ∧ results !! "AD" = results' !! "AD"
  ∧ results !! "AD + Treatment" = results' !! "AD + Treatment"
  ∧ setup_parameters !! "Healthy" = all_params' !! "Healthy"
  ∧ plot_comparative_results results setup_parameters
    = plot_comparative_results results' all_params'.
Proof.
  do 4 (split; [vm_compute; reflexivity|]).
  apply plot_comparative_results_reads_only; vm_compute; reflexivity.
Defined.

(** ** The simulations and the plot together *)

Lemma run_conditions_is_Some (items : list (string * params))
    (init results : gmap string condition_result) (name : string) :
  run_conditions items init = Ok results →
  name ∈ items.*1 ∨ is_Some (init !! name) →
  is_Some (results !! name).
Proof.
  revert init. induction items as [|[n p] rest IH]; intros init Hrun Hin.
  - injection Hrun as <-. destruct Hin as [Hin|Hin]; [|done].
    by apply elem_of_nil in Hin.
  - destruct (run_ltp_simulation p) as [[ts ws]|e] eqn:Hp;
      [|by rewrite (run_conditions_raise n p rest init e Hp) in Hrun].
    rewrite (run_conditions_cons n p rest init ts ws Hp) in Hrun.
    apply (IH _ Hrun). simpl in Hin.
    destruct (decide (n = name)) as [->|Hne].
    + right. rewrite lookup_insert_eq. by eexists.
    + destruct Hin as [[->|Hin]%elem_of_cons|Hin]; [done|by left|].
      right. by rewrite lookup_insert_ne.
Qed.

Lemma run_conditions_same_length (items : list (string * params))
    (init results : gmap string condition_result) :
  run_conditions items init = Ok results →
  (∀ name r, init !! name = Some r → length (time r) = length (weight r)) →
  ∀ name r, results !! name = Some r → length (time r) = length (weight r).
Proof.
  revert init. induction items as [|[n p] rest IH]; intros init Hrun Hinit.
  - by injection Hrun as <-.
  - destruct (run_ltp_simulation p) as [[ts ws]|e] eqn:Hp;
      [|by rewrite (run_conditions_raise n p rest init e Hp) in Hrun].
    rewrite (run_conditions_cons n p rest init ts ws Hp) in Hrun.
    apply (IH _ Hrun). intros name r.
    destruct (decide (n = name)) as [->|Hne].
    + rewrite lookup_insert_eq. intros [= <-]. simpl.
      apply run_ltp_simulation_inv in Hp as (_ & _ & ->).
      by rewrite length_trace.
    + rewrite lookup_insert_ne by done. apply Hinit.
Qed.

Lemma plot_comparative_results_Done
    (all_results : gmap string condition_result)
    (all_params : gmap string params)
    (healthy ad treated : condition_result) (healthy_params : params) :
  all_results !! "Healthy" = Some healthy →
  all_results !! "AD" = Some ad →
  all_results !! "AD + Treatment" = Some treated →
  length (time healthy) = length (weight healthy) →
  length (time ad) = length (weight ad) →
  length (time treated) = length (weight treated) →
  all_params !! "Healthy" = Some healthy_params →
  (∃ fig, plot_comparative_results all_results all_params = Done fig)
  ↔ PrimFloat.is_finite (w_max healthy_params + 0.5)%float = true.
Proof.
  intros Hh Ha Ht Lh La Lt Hp.
  unfold plot_comparative_results, getkey, plot.
  rewrite Hh. simpl. rewrite decide_True by done. simpl.
  rewrite Ha. simpl. rewrite decide_True by done. simpl.
  rewrite Ht. simpl. rewrite decide_True by done. simpl.
  rewrite Hp. simpl.
  rewrite <- (ylim_Done (w_max healthy_params + 0.5)).
  destruct (ylim 0 (w_max healthy_params + 0.5)) as [c|e]; simpl.
  - split; intros _; by eexists.
  - split; by intros [? ?].
Qed.

(** X9.  Once the loop over the conditions has returned, with the three
    conditions among the items, the plotter can fail on its results at
    the y limit only: it returns a figure exactly when [w_max + 0.5] of
    the Healthy record is finite.  Every stored time array is as long as
    its weight array, whatever the parameter values. *)
Theorem simulated_results_plot (items : list (string * params))
    (results : gmap string condition_result)
    (all_params : gmap string params) (healthy_params : params) :
  run_conditions items ∅ = Ok results →
  "Healthy" ∈ items.*1 →
  "AD" ∈ items.*1 →
  "AD + Treatment" ∈ items.*1 →
  all_params !! "Healthy" = Some healthy_params →
  (∀ name r, results !! name = Some r →
             length (time r) = length (weight r))
  ∧ ((∃ fig, plot_comparative_results results all_params = Done fig)
     ↔ PrimFloat.is_finite (w_max healthy_params + 0.5)%float = true).
Proof.
  intros Hrun Hh Ha Ht Hp.
  destruct (run_conditions_is_Some items ∅ results "Healthy" Hrun)
    as [h Hh']; [by left|].
  destruct (run_conditions_is_Some items ∅ results "AD" Hrun)
    as [a Ha']; [by left|].
  destruct (run_conditions_is_Some items ∅ results "AD + Treatment" Hrun)
    as [t Ht']; [by left|].
  assert (∀ name r, results !! name = Some r →
                    length (time r) = length (weight r)) as Hlen.
  { apply (run_conditions_same_length items ∅ results Hrun).
    intros name r H. by rewrite lookup_empty in H. }
  split; [exact Hlen|].
  apply (plot_comparative_results_Done results all_params h a t);
    try done; by eapply Hlen.
Qed.

Lemma simulated_results_plot_witness :
  let healthy := inherit base_params 2.5 0.5 in
  let ad := inherit base_params 1.2 0.05 in
  let results : gmap string condition_result :=
    <["AD + Treatment" :=
        {| time := grid_100_01;
           weight := trace healthy grid_100_01 (w_initial healthy) |}]>
    (<["AD" :=
        {| time := grid_100_01;
           weight := trace ad grid_100_01 (w_initial ad) |}]>
    (<["Healthy" :=
        {| time := grid_100_01;
           weight := trace healthy grid_100_01 (w_initial healthy) |}]> ∅))
  in
  run_conditions setup_parameters_items ∅ = Ok results
  ∧ "Healthy" ∈ setup_parameters_items.*1
  ∧ "AD" ∈ setup_parameters_items.*1
  ∧ "AD + Treatment" ∈ setup_parameters_items.*1
  ∧ setup_parameters !! "Healthy" = Some healthy
  ∧ (∀ name r, results !! name = Some r →
               length (time r) = length (weight r))
  ∧ ((∃ fig, plot_comparative_results results setup_parameters = Done fig)
     ↔ PrimFloat.is_finite (w_max healthy + 0.5)%float = true).
Proof.
  assert (∀ name : string,
            bool_decide (name ∈ setup_parameters_items.*1) = true →
            name ∈ setup_parameters_items.*1) as Hin
    by (intros name; apply bool_decide_eq_true_1).
  split; [vm_compute; reflexivity|].
  do 3 (split; [apply Hin; vm_compute; reflexivity|]).
  split; [vm_compute; reflexivity|].
  apply (simulated_results_plot setup_parameters_items).
  - vm_compute; reflexivity.
  - apply Hin; vm_compute; reflexivity.
  - apply Hin; vm_compute; reflexivity.
  - apply Hin; vm_compute; reflexivity.
  - vm_compute; reflexivity.
Defined.

(** ** What the main block draws *)

Lemma array_eqb_eq (a b : list float) : array_eqb a b = true → a = b.
Proof.
  revert b. induction a as [|x a IH]; intros [|y b]; simpl; try done.
  intros [Hxy Hab]%andb_prop.
  apply FloatAxioms.Leibniz.eqb_spec in Hxy as ->. by rewrite (IH b Hab).
Qed.

Lemma figure_shows_sound (m : outcome (list plt_call))
    (first second : result (list float * list float))
    (lo hi top : float) :
  figure_shows m first second lo hi top = true →
  ∃ fig t1 w1 t2 w2,
    m = Done fig
    ∧ first = Ok (t1, w1)
    ∧ second = Ok (t2, w2)
    ∧ curves fig
      = [ {| time := t1; weight := w1 |};
          {| time := t2; weight := w2 |};
          {| time := t1; weight := w1 |} ]
    ∧ spans fig = [(lo, hi)]
    ∧ y_limits fig = Some (0%float, top)
    ∧ ∀ c i w,
        c ∈ curves fig → weight c !! i = Some w →
        (0 <? w)%float = true ∧ (w <? top)%float = true.
Proof.
  unfold figure_shows.
  destruct m as [fig|]; [|done].
  destruct first as [[t1 w1]|]; [|done].
  destruct second as [[t2 w2]|]; [|done].
  destruct (curves fig) as [|[x1 y1] [|[x2 y2] [|[x3 y3] [|]]]] eqn:Hc;
    try done.
  destruct (spans fig) as [|[xmin xmax] [|]] eqn:Hs; try done.
  destruct (y_limits fig) as [[bottom top']|] eqn:Hy; [|done].
  simpl. intros H.
  apply andb_prop in H as [H Hw2]. apply andb_prop in H as [H Hw1].
  apply andb_prop in H as [H Htop]. apply andb_prop in H as [H Hbot].
  apply andb_prop in H as [H Hhi]. apply andb_prop in H as [H Hlo].
  apply andb_prop in H as [H Hy3]. apply andb_prop in H as [H Hx3].
  apply andb_prop in H as [H Hy2]. apply andb_prop in H as [H Hx2].
  apply andb_prop in H as [Hx1 Hy1].
  apply array_eqb_eq in Hx1 as ->, Hy1 as ->, Hx2 as ->, Hy2 as ->,
    Hx3 as ->, Hy3 as ->.
  apply FloatAxioms.Leibniz.eqb_spec in Hlo as ->, Hhi as ->, Hbot as ->,
    Htop as ->.
  exists fig, t1, w1, t2, w2. do 3 (split; [reflexivity|]).
  split; [exact Hc|]. split; [exact Hs|]. split; [exact Hy|].
  rewrite Hc. clear Hc Hs Hy.
  assert (∀ ws i w,
            forallb (fun w => (0 <? w)%float && (w <? top)%float) ws = true →
            ws !! i = Some w →
            (0 <? w)%float = true ∧ (w <? top)%float = true) as Hin.
  { intros ws i w Hall Hw.
    by apply andb_prop,
      (forallb_lookup (fun w => (0 <? w)%float && (w <? top)%float) ws i). }
  intros c i w Hc Hw.
  apply elem_of_cons in Hc as [->|Hc]; [by apply (Hin w1 i)|].
  apply elem_of_cons in Hc as [->|Hc]; [by apply (Hin w2 i)|].
  apply elem_of_cons in Hc as [->|Hc]; [by apply (Hin w1 i)|].
  by apply elem_of_nil in Hc.
Qed.

(** X10.  The script runs to the end: the three simulations return and the
    plotter draws, in this order, the Healthy run, the AD run and the
    AD + Treatment run, which is the Healthy run again.  It shades the span
    from 40 to 45, the window of every condition, and sets the y limits to
    0 and 3; every plotted weight lies strictly between the limits. *)
Theorem main_figure :
  ∃ fig t_healthy w_healthy t_ad w_ad,
    main = Done fig
    ∧ run_ltp_simulation (inherit base_params 2.5 0.5)
      = Ok (t_healthy, w_healthy)
    ∧ run_ltp_simulation (inherit base_params 1.2 0.05) = Ok (t_ad, w_ad)
    ∧ curves fig
      = [ {| time := t_healthy; weight := w_healthy |};
          {| time := t_ad; weight := w_ad |};
          {| time := t_healthy; weight := w_healthy |} ]
    ∧ spans fig = [(40, 45)%float]
    ∧ (∀ name p,
         setup_parameters !! name = Some p →
         tetanus_start p = 40%float ∧ tetanus_end p = 45%float)
    ∧ y_limits fig = Some (0, 3)%float
    ∧ ∀ c i w,
        c ∈ curves fig → weight c !! i = Some w →
        (0 <? w)%float = true ∧ (w <? 3)%float = true.
Proof.
  destruct (figure_shows_sound main
              (run_ltp_simulation (inherit base_params 2.5 0.5))
              (run_ltp_simulation (inherit base_params 1.2 0.05))
              40 45 3)
    as (fig & t1 & w1 & t2 & w2 & Hmain & Hh & Ha & Hc & Hs & Hy & Hw);
    [vm_compute; reflexivity|].
  exists fig, t1, w1, t2, w2.
  split; [exact Hmain|]. split; [exact Hh|]. split; [exact Ha|].
  split; [exact Hc|]. split; [exact Hs|].
  split; [apply each_condition; split; reflexivity|].
  split; [exact Hy|exact Hw].
Qed.
